(* ===== verification/_CoqProject ===== *)
-Q . S2P
Prelude.v
GoStrings.v
GoFloat.v
GoError.v
Strconv.v
GoTime.v
SpentCalories.v
DaySteps.v
