(* ===== verification/Prelude.v ===== *)
(** * go4sprint: a verification development of the step-count calculator

    The program (repository demderk/go4sprint) is two Go packages:

    - [src/internal/spentcalories/spentcalories.go]: [parseTraining]
      splits a record ["<steps>,<label>,<duration>"], [distance] and
      [meanSpeed] derive the path length (height-scaled stride) and the
      mean speed, [RunningSpentCalories] validates its four inputs in the
      order steps, weight, height, duration and computes
      [weight * speed * minutes / 60], [WalkingSpentCalories] scales it by
      [0.5], and [TrainingInfo] dispatches on the label ("Ходьба" walks,
      "Бег" runs) and renders a five-line report.
    - [src/internal/daysteps/daysteps.go]: [parsePackage] splits
      ["<steps>,<duration>"], and [DayActionInfo] renders a three-line
      report with a fixed-stride distance and the walking calories of
      [spentcalories], swallowing every error into [""] after logging it.

    Both packages call the Go standard library: [strings.Split],
    [strconv.Atoi], [time.ParseDuration], [Duration.Hours]/[Minutes],
    [fmt.Sprintf] with [%v], [%s], [%.2f], and [log.Println].  Those are
    not code of the repository; they are modelled after the Go 1.22
    sources, because every property of the parsers depends on them.

    ** Files (in dependency order)

    - [Prelude] (this file): the [result] type of Go's [(value, error)]
      returns with its bind notation in [go_scope], machine integers
      ([int64]/[uint64] wrap-around), string lemmas, the [go4sprint] hint
      database and the development's tactics.
    - [GoStrings]: [strings.Split] on a one-byte separator, and the
      decimal printing of integers used by [%v] ([strconv.Itoa]).
    - [GoFloat]: the interface [Float64] of the float64 operations the
      code uses (conversion from an integer, [+], [*], [/], [<=], the
      truncating conversion to an integer, and [%.2f]), with two
      instances: [IEEE] on Rocq's primitive binary64 floats (bit-exact,
      used to evaluate the program as Go does, NaN included) and [Exact]
      on the rationals [Q] (the real-number meaning of the formulas).
      The class [Float64Exact] states the laws an exact model satisfies;
      the calculator's formula theorems are proved against it.
    - [GoError]: Go's [error] values of the program: [*strconv.NumError],
      the [time] package's parse errors, and the package variables
      created by [errors.New].
    - [Strconv]: [strconv.Atoi] with its fast path and its slow path
      through [ParseInt]/[ParseUint], with uint64 overflow written out.
    - [GoTime]: [time.Duration] as an int64 count of nanoseconds,
      [Hours], [Minutes] and [time.ParseDuration] ([leadingInt],
      [leadingFraction], the unit table, uint64 accumulation with its
      wrap-around).
    - [SpentCalories]: Module [SpentCalories], the package of the same
      name, every function of it.  Section [WithFloat] holds the code,
      written once against [Float64]; Section [Exact] the formulas in an
      exact model ([Float64Exact]); Section [Generic] the parser and
      dispatch theorems, true in every model; the IEEE results follow.
    - [DaySteps]: Module [DaySteps], the package of the same name, laid
      out the same way; it calls [SpentCalories.WalkingSpentCalories].

    A Go function returning [(value, error)] is a definition returning
    [goresult value]; an entry point that logs returns, beside its
    result, the list of errors it passed to [log.Println].  The two package
    files end with their theorems applied at concrete inputs.

    ** What the theorems show

    Calculator: the guard order of [RunningSpentCalories] and its error
    values on every branch; in an exact model the calories equal
    [weight * distance] (the duration cancels out of the formula), walking
    is half of it, [distance] and [meanSpeed] are non-negative and
    [meanSpeed] is [0] for a non-positive duration.  In the IEEE model a
    NaN weight or height passes every guard: for every record with a
    known label [TrainingInfo] reports NaN calories, printed ["NaN"].
    Parsers: [parsePackage] and [parseTraining] accept exactly the
    records of the grammar (an inductive specification), with a positive
    int64 step count and a positive duration, and fail with the error of
    the first failing check in source order; the parsed values are
    in range; a printed record parses back (round trip through
    [Itoa]/[Atoi] and the duration printer).  [Atoi]'s fast path agrees
    with [ParseInt] on every string it handles; [ParseDuration]'s loop
    always terminates within the fuel given to it and its result is an
    int64; its uint64 sum wraps around, so for every record [parsePackage]
    accepts, prefixing the duration with two components of 2^63 ns
    changes nothing; a negated duration is rejected as [ErrZeroDuration].
    Reports: [DayActionInfo] returns [""] exactly when one error is
    logged, and after a successful parse only the weight and height
    errors of [spentcalories] can occur; its report shows the fixed-stride
    distance [steps * 0.65 / 1000], which agrees with the height-scaled
    distance behind the calories only at a height of 13/9 m.
    [TrainingInfo] logs only parse errors, reports an unknown label as
    [ErrUnknownTraining], produces a report only for a known label and a
    weight and height that pass the guards, and in an exact model that
    report carries the distance, speed and calories of the formulas.
    The spec's test cases are evaluated in the IEEE model: the daily
    parser's examples and the run [1000, 70, 1.75, 10m] within [1e-6] of
    [55.125]; every theorem with hypotheses is applied at a concrete
    input by a witness.

    ** Fuel and bounds

    [ParseDuration]'s loop is a [Fixpoint] on fuel; each round consumes at
    least one byte, so the fuel [String.length s] given by the caller is
    enough (theorem [GoTime.parse_loop_fuel]).  Integer printing uses
    [Z.log2 n + 1] rounds, at least the number of decimal digits.  Go's
    [int] is 64 bits wide (amd64); every integer is a [Z] kept in range by
    the code's own checks or by an explicit wrap.

    ** Not modelled

    The text of the log lines ([log.Println] prints a time stamp and
    [err.Error()]): a log is the list of error values logged, in order.
    The zero values returned beside an error (callers never read them):
    a failed call returns [Err e] only.  Go's string quoting inside error
    messages.  The [main] package and I/O: the repository has none. *)

From Stdlib Require Import ZArith String Ascii List Lia Bool.
Import ListNotations.

Declare Scope go_scope.
Delimit Scope go_scope with go.

(** ** Go's [(value, error)] results *)

Inductive result (E A : Type) : Type :=
| Ok (a : A)
| Err (e : E).
Arguments Ok {E A} a.
Arguments Err {E A} e.

Definition bind {E A B : Type} (r : result E A) (k : A -> result E B) : result E B :=
  match r with
  | Ok a => k a
  | Err e => Err e
  end.

Definition rmap {E A B : Type} (f : A -> B) (r : result E A) : result E B :=
  match r with
  | Ok a => Ok (f a)
  | Err e => Err e
  end.

Definition is_ok {E A : Type} (r : result E A) : bool :=
  match r with Ok _ => true | Err _ => false end.

Notation "x <- c ;; k" := (bind c (fun x => k))
  (at level 100, c at next level, right associativity) : go_scope.

(** ** Machine integers *)

Open Scope Z_scope.

(** Go's [int] and [int64] (two's complement, 64 bits) and [uint64]. *)
Definition in_int64 (z : Z) : Prop := -2^63 <= z < 2^63.
Definition in_uint64 (z : Z) : Prop := 0 <= z < 2^64.

(** The conversion of an integer to [int64]: keep the low 64 bits and read
    them signed, as Go's conversions and overflowing operations do. *)
Definition wrap_int64 (z : Z) : Z := (z + 2^63) mod 2^64 - 2^63.
Definition wrap_uint64 (z : Z) : Z := z mod 2^64.

(** ** Strings as byte sequences

    A Go [string] is a sequence of bytes; a Rocq [string] is a list of
    [ascii], which are bytes.  UTF-8 text such as "Бег" is its bytes. *)

Definition byte_val (c : ascii) : Z := Z.of_N (N_of_ascii c).

(** ** Hint database and tactics *)

Create HintDb go4sprint.
Create Rewrite HintDb go4sprint_rw.

(** Unfold a [bind] or [rmap] whose scrutinee is known. *)
Lemma bind_Ok {E A B : Type} (a : A) (k : A -> result E B) : bind (Ok a) k = k a.
Proof. reflexivity. Qed.

Lemma bind_Err {E A B : Type} (e : E) (k : A -> result E B) : bind (Err e) k = Err e.
Proof. reflexivity. Qed.

#[export] Hint Rewrite @bind_Ok @bind_Err : go4sprint_rw.

(** Inversion of a successful [bind]. *)
Lemma bind_eq_Ok {E A B : Type} (r : result E A) (k : A -> result E B) (b : B) :
  bind r k = Ok b <-> exists a, r = Ok a /\ k a = Ok b.
Proof.
  destruct r as [a|e]; simpl; split.
  - intros H. eauto.
  - intros [a' [H1 H2]]. congruence.
  - discriminate.
  - intros [a' [H1 _]]. discriminate.
Qed.

Lemma bind_eq_Err {E A B : Type} (r : result E A) (k : A -> result E B) (e : E) :
  bind r k = Err e <-> r = Err e \/ exists a, r = Ok a /\ k a = Err e.
Proof.
  destruct r as [a|e']; simpl; split.
  - intros H. eauto.
  - intros [H|[a' [H1 H2]]]; [discriminate|congruence].
  - intros H. left. congruence.
  - intros [H|[a' [H1 _]]]; [congruence|discriminate].
Qed.

(** Case on every boolean test in the goal, with its equation. *)
Ltac case_ifs :=
  repeat match goal with
         | |- context [if ?b then _ else _] =>
             lazymatch b with
             | true => fail
             | false => fail
             | _ => let E := fresh "E" in destruct b eqn:E
             end
         end.

(** The same on a hypothesis. *)
Ltac case_ifs_in H :=
  repeat match type of H with
         | context [if ?b then _ else _] =>
             lazymatch b with
             | true => fail
             | false => fail
             | _ => let E := fresh "E" in destruct b eqn:E
             end
         end.

(** Turn boolean tests in the hypotheses into propositions: connectives,
    and comparisons on [Z] and [nat]. *)
Ltac zbool :=
  repeat match goal with
         | H : (_ && _) = true |- _ => apply andb_true_iff in H as [? ?]
         | H : (_ || _) = false |- _ => apply orb_false_iff in H as [? ?]
         | H : negb _ = true |- _ => apply negb_true_iff in H
         | H : negb _ = false |- _ => apply negb_false_iff in H
         | H : (_ <=? _)%Z = true |- _ => apply Z.leb_le in H
         | H : (_ <=? _)%Z = false |- _ => apply Z.leb_gt in H
         | H : (_ <? _)%Z = true |- _ => apply Z.ltb_lt in H
         | H : (_ <? _)%Z = false |- _ => apply Z.ltb_ge in H
         | H : (_ =? _)%Z = true |- _ => apply Z.eqb_eq in H
         | H : (_ =? _)%Z = false |- _ => apply Z.eqb_neq in H
         | H : (_ =? _)%nat = true |- _ => apply Nat.eqb_eq in H
         | H : (_ =? _)%nat = false |- _ => apply Nat.eqb_neq in H
         | H : (_ <=? _)%nat = true |- _ => apply Nat.leb_le in H
         | H : (_ <=? _)%nat = false |- _ => apply Nat.leb_gt in H
         end.

(** ** Lemmas on machine integers *)

Lemma wrap_int64_id (z : Z) : in_int64 z -> wrap_int64 z = z.
Proof.
  unfold in_int64, wrap_int64. intros H.
  rewrite Z.mod_small by lia. lia.
Qed.

Lemma wrap_int64_range (z : Z) : in_int64 (wrap_int64 z).
Proof.
  unfold in_int64, wrap_int64.
  pose proof (Z.mod_pos_bound (z + 2^63) (2^64) ltac:(lia)). lia.
Qed.

Lemma wrap_uint64_id (z : Z) : in_uint64 z -> wrap_uint64 z = z.
Proof. unfold in_uint64, wrap_uint64. intros H. apply Z.mod_small; lia. Qed.

#[export] Hint Resolve wrap_int64_range : go4sprint.

(** Adding a multiple of [2^64] does not change the int64 value. *)
Lemma wrap_int64_add_mul (z k : Z) : wrap_int64 (z + k * 2^64) = wrap_int64 z.
Proof. unfold wrap_int64. rewrite <- Z.add_assoc, (Z.add_comm (k * _)), Z.add_assoc, Z.mod_add by lia. reflexivity. Qed.

(** Negation commutes with the wrap: [-(int64(x))] wraps as [-x] does. *)
Lemma wrap_int64_opp (x : Z) : wrap_int64 (- wrap_int64 x) = wrap_int64 (- x).
Proof.
  assert (E : - wrap_int64 x = - x + ((x + 2^63) / 2^64) * 2^64).
  { unfold wrap_int64. rewrite Z.mod_eq by lia. lia. }
  rewrite E. apply wrap_int64_add_mul.
Qed.

Lemma byte_val_range (c : ascii) : 0 <= byte_val c < 256.
Proof.
  unfold byte_val. pose proof (N_ascii_bounded c). lia.
Qed.

Lemma byte_val_inj (c d : ascii) : byte_val c = byte_val d -> c = d.
Proof.
  unfold byte_val. intros H. apply N2Z.inj in H.
  rewrite <- (ascii_N_embedding c), <- (ascii_N_embedding d). congruence.
Qed.

(** ** Lemmas on strings *)

Lemma string_app_cons (c : ascii) (r t : string) :
  (String c r ++ t)%string = String c (r ++ t).
Proof. reflexivity. Qed.

Lemma string_app_assoc (a b c : string) : ((a ++ b) ++ c)%string = (a ++ (b ++ c))%string.
Proof. induction a as [|x a IH]; simpl; [reflexivity|]. now rewrite IH. Qed.

Lemma string_app_nil_r (a : string) : (a ++ "")%string = a.
Proof. induction a as [|x a IH]; simpl; [reflexivity|]. now rewrite IH. Qed.

Lemma string_length_app (a b : string) :
  String.length (a ++ b) = (String.length a + String.length b)%nat.
Proof. induction a as [|x a IH]; simpl; [reflexivity|]. now rewrite IH. Qed.

#[export] Hint Rewrite string_app_assoc string_app_nil_r string_length_app : go4sprint_rw.
