(* ===== verification/GoStrings.v ===== *)
(** * Byte strings of the Go standard library

    [strings.Split] with the one-byte separator [","] the program uses,
    written as Go's [genSplit] loop (count the separators, cut at the
    first one that many times), next to a structural reference [split_ref];
    and the decimal printing of integers done by [fmt]'s [%v] and by
    [strconv.Itoa]. *)

From Stdlib Require Import ZArith String Ascii List Lia Bool.
From S2P Require Import Prelude.
Import ListNotations.
Open Scope Z_scope.

(** ** [strings.Split] *)

(** [strings.Count] for a one-byte separator. *)
Fixpoint count_byte (c : ascii) (s : string) : nat :=
  match s with
  | EmptyString => 0
  | String x r => if Ascii.eqb x c then S (count_byte c r) else count_byte c r
  end.

(** [strings.IndexByte]: the position of the first [c], if any. *)
Fixpoint index_byte (c : ascii) (s : string) : option nat :=
  match s with
  | EmptyString => None
  | String x r =>
      if Ascii.eqb x c then Some 0%nat
      else option_map S (index_byte c r)
  end.

(** [s[i:]] and [s[:i]] *)
Definition str_drop (i : nat) (s : string) : string := substring i (String.length s - i) s.
Definition str_take (i : nat) (s : string) : string := substring 0 i s.

(** The loop of [genSplit(s, sep, 0, -1)]: [n - 1] rounds, each cutting
    [s] at [Index(s, sep)]; the rest of [s] is the last piece. *)
Fixpoint genSplit_loop (rounds : nat) (c : ascii) (s : string) : list string :=
  match rounds with
  | O => [s]
  | S k =>
      match index_byte c s with
      | None => [s]
      | Some m => str_take m s :: genSplit_loop k c (str_drop (S m) s)
      end
  end.

(** [strings.Split(s, sep)] for a one-byte [sep = String c ""]:
    [n = Count(s, sep) + 1], so the loop runs [Count(s, sep)] rounds. *)
Definition Split (c : ascii) (s : string) : list string :=
  genSplit_loop (count_byte c s) c s.

(** The reference: the pieces between the separators, by recursion on [s]. *)
Fixpoint split_ref (c : ascii) (s : string) : list string :=
  match s with
  | EmptyString => [EmptyString]
  | String x r =>
      let parts := split_ref c r in
      if Ascii.eqb x c then EmptyString :: parts
      else match parts with
           | p :: ps => String x p :: ps
           | [] => [String x EmptyString]
           end
  end.

(** Whether a byte occurs in a string. *)
Fixpoint has_byte (c : ascii) (s : string) : bool :=
  match s with
  | EmptyString => false
  | String x r => Ascii.eqb x c || has_byte c r
  end.

(** The one-byte string ["\n"]. *)
Definition newline : string := String (ascii_of_nat 10) EmptyString.

(** ** Decimal printing *)

Definition digit_char (d : Z) : ascii := ascii_of_N (Z.to_N (48 + d)).

(** One decimal digit per round, least significant first, prepended to
    [acc]; [rounds] bounds the number of digits. *)
Fixpoint utoa_aux (rounds : nat) (n : Z) (acc : string) : string :=
  match rounds with
  | O => acc
  | S k =>
      let acc' := String (digit_char (n mod 10)) acc in
      if n <? 10 then acc' else utoa_aux k (n / 10) acc'
  end.

(** The decimal digits of [n >= 0]: [Z.log2 n + 1] rounds are enough, as
    [n < 2 ^ (log2 n + 1) <= 10 ^ (log2 n + 1)]. *)
Definition utoa (n : Z) : string := utoa_aux (S (Z.to_nat (Z.log2 n))) n EmptyString.

(** [strconv.Itoa] and [fmt]'s [%v] on an [int]: a minus sign, then the
    digits of the magnitude. *)
Definition Itoa (z : Z) : string :=
  if z <? 0 then String "-" (utoa (- z)) else utoa z.

(** The value of a string of decimal digits read left to right, as the
    loops of [strconv] accumulate it ([n = n*10 + d]). *)
Fixpoint horner (acc : Z) (s : string) : Z :=
  match s with
  | EmptyString => acc
  | String x r => horner (acc * 10 + (byte_val x - 48)) r
  end.

Definition is_digit (c : ascii) : bool := (48 <=? byte_val c) && (byte_val c <=? 57).

Fixpoint all_digits (s : string) : bool :=
  match s with
  | EmptyString => true
  | String x r => is_digit x && all_digits r
  end.

(** ** Lemmas on slicing *)

Lemma str_take_cons (m : nat) (x : ascii) (r : string) :
  str_take (S m) (String x r) = String x (str_take m r).
Proof. reflexivity. Qed.

Lemma str_drop_cons (m : nat) (x : ascii) (r : string) :
  str_drop (S m) (String x r) = str_drop m r.
Proof. reflexivity. Qed.

Lemma str_drop_0 (s : string) : str_drop 0 s = s.
Proof.
  unfold str_drop. rewrite Nat.sub_0_r.
  induction s as [|x r IH]; [reflexivity|]. simpl. f_equal. exact IH.
Qed.

Lemma str_take_0 (s : string) : str_take 0 s = EmptyString.
Proof. destruct s; reflexivity. Qed.

#[export] Hint Rewrite str_take_cons str_drop_cons str_drop_0 str_take_0 : go4sprint_rw.

(** The first separator cuts [s] into the bytes before it and the rest. *)
Lemma index_byte_Some (c : ascii) (s : string) (m : nat) :
  index_byte c s = Some m ->
  s = (str_take m s ++ String c (str_drop (S m) s))%string /\
  has_byte c (str_take m s) = false.
Proof.
  revert m. induction s as [|x r IH]; intros m H; simpl in H; [discriminate|].
  destruct (Ascii.eqb_spec x c) as [->|Hne].
  - injection H as <-. rewrite str_drop_cons, str_drop_0, str_take_0. simpl. auto.
  - destruct (index_byte c r) as [k|] eqn:Hk; simpl in H; [|discriminate].
    injection H as <-. destruct (IH k eq_refl) as [E N].
    rewrite str_take_cons, str_drop_cons. simpl. split.
    + f_equal. exact E.
    + apply Ascii.eqb_neq in Hne. rewrite Hne. exact N.
Qed.

Lemma index_byte_None (c : ascii) (s : string) :
  index_byte c s = None <-> has_byte c s = false.
Proof.
  induction s as [|x r IH]; simpl; [tauto|].
  destruct (Ascii.eqb x c); simpl; [split; discriminate|].
  destruct (index_byte c r); simpl; rewrite <- IH; split; congruence.
Qed.

Lemma count_byte_zero (c : ascii) (s : string) :
  count_byte c s = 0%nat <-> has_byte c s = false.
Proof.
  induction s as [|x r IH]; simpl; [tauto|].
  destruct (Ascii.eqb x c); simpl; [split; discriminate|exact IH].
Qed.

Lemma count_byte_app (c : ascii) (a b : string) :
  count_byte c (a ++ b) = (count_byte c a + count_byte c b)%nat.
Proof.
  induction a as [|x r IH]; simpl; [reflexivity|].
  destruct (Ascii.eqb x c); rewrite IH; reflexivity.
Qed.

(** ** The reference split *)

Lemma split_ref_no_sep (c : ascii) (s : string) :
  has_byte c s = false -> split_ref c s = [s].
Proof.
  induction s as [|x r IH]; simpl; [reflexivity|].
  intros H. apply orb_false_iff in H as [Hx Hr].
  rewrite Hx, (IH Hr). reflexivity.
Qed.

(** Splitting [a ++ c :: b] with [c] absent from [a]. *)
Lemma split_ref_app_sep (c : ascii) (a b : string) :
  has_byte c a = false ->
  split_ref c (a ++ String c b) = a :: split_ref c b.
Proof.
  induction a as [|x r IH]; simpl; intros H.
  - rewrite Ascii.eqb_refl. reflexivity.
  - apply orb_false_iff in H as [Hx Hr]. rewrite Hx, (IH Hr). reflexivity.
Qed.

(** [Split] computes the reference: Go's index-and-cut loop yields the
    pieces between the separators. *)
Lemma Split_eq_ref (c : ascii) (s : string) : Split c s = split_ref c s.
Proof.
  unfold Split. remember (count_byte c s) as n eqn:Hn. revert s Hn.
  induction n as [|n IH]; intros s Hn; simpl.
  - symmetry in Hn. apply count_byte_zero in Hn. now rewrite split_ref_no_sep.
  - destruct (index_byte c s) as [m|] eqn:Hi.
    + destruct (index_byte_Some c s m Hi) as [E N].
      rewrite E at 3. rewrite split_ref_app_sep by exact N. f_equal.
      apply IH. rewrite E in Hn. rewrite count_byte_app in Hn. simpl in Hn.
      rewrite Ascii.eqb_refl in Hn. apply count_byte_zero in N. lia.
    + apply index_byte_None in Hi. now rewrite split_ref_no_sep.
Qed.

Lemma split_ref_length (c : ascii) (s : string) :
  length (split_ref c s) = S (count_byte c s).
Proof.
  induction s as [|x r IH]; simpl; [reflexivity|].
  destruct (Ascii.eqb x c); simpl; [now rewrite IH|].
  destruct (split_ref c r) as [|p ps]; simpl in *; [discriminate|exact IH].
Qed.

Lemma split_ref_nonempty (c : ascii) (s : string) : split_ref c s <> [].
Proof. intros H. pose proof (split_ref_length c s) as L. rewrite H in L. discriminate. Qed.

(** No piece holds the separator. *)
Lemma split_ref_pieces (c : ascii) (s : string) :
  Forall (fun p => has_byte c p = false) (split_ref c s).
Proof.
  induction s as [|x r IH]; simpl; [repeat constructor|].
  destruct (Ascii.eqb x c) eqn:Ex; [constructor; auto|].
  destruct (split_ref c r) as [|p ps]; [repeat constructor; simpl; now rewrite Ex|].
  inversion IH; subst. constructor; auto. simpl. now rewrite Ex.
Qed.

(** Joining the pieces with the separator gives the string back. *)
Lemma split_ref_concat (c : ascii) (s : string) :
  String.concat (String c EmptyString) (split_ref c s) = s.
Proof.
  induction s as [|x r IH]; simpl; [reflexivity|].
  pose proof (split_ref_nonempty c r) as NE.
  destruct (Ascii.eqb_spec x c) as [->|Hne].
  - destruct (split_ref c r) as [|p ps]; [contradiction|].
    simpl. destruct ps; simpl in *; now rewrite IH.
  - destruct (split_ref c r) as [|p ps]; [contradiction|].
    destruct ps; simpl in *; now rewrite IH.
Qed.

(** Splitting pieces joined with the separator gives them back. *)
Lemma split_ref_join (c : ascii) (parts : list string) :
  parts <> [] -> Forall (fun p => has_byte c p = false) parts ->
  split_ref c (String.concat (String c EmptyString) parts) = parts.
Proof.
  induction parts as [|p ps IH]; intros NE F; [contradiction|].
  inversion F; subst. destruct ps as [|q qs].
  - simpl. now apply split_ref_no_sep.
  - change (String.concat (String c EmptyString) (p :: q :: qs))
      with (p ++ String c (String.concat (String c EmptyString) (q :: qs)))%string.
    rewrite split_ref_app_sep by assumption. f_equal. apply IH; [discriminate|assumption].
Qed.

(** ** Lemmas on decimal printing *)

Lemma digit_char_val (d : Z) : 0 <= d < 10 -> byte_val (digit_char d) = 48 + d.
Proof.
  intros H. unfold byte_val, digit_char.
  rewrite N_ascii_embedding by lia. lia.
Qed.

Lemma digit_char_is_digit (d : Z) : 0 <= d < 10 -> is_digit (digit_char d) = true.
Proof.
  intros H. unfold is_digit. rewrite digit_char_val by exact H.
  apply andb_true_iff. split; apply Z.leb_le; lia.
Qed.

Lemma horner_app (a : Z) (s t : string) : horner a (s ++ t) = horner (horner a s) t.
Proof. revert a. induction s as [|x r IH]; intros a; simpl; auto. Qed.

Lemma all_digits_app (s t : string) : all_digits (s ++ t) = all_digits s && all_digits t.
Proof. induction s as [|x r IH]; simpl; [reflexivity|]. now rewrite IH, andb_assoc. Qed.

#[export] Hint Rewrite horner_app all_digits_app : go4sprint_rw.

Lemma utoa_aux_app (k : nat) (n : Z) (acc : string) :
  utoa_aux k n acc = (utoa_aux k n EmptyString ++ acc)%string.
Proof.
  revert n acc. induction k as [|k IH]; intros n acc; simpl; [reflexivity|].
  destruct (n <? 10); [reflexivity|].
  rewrite IH, (IH _ (String _ EmptyString)), string_app_assoc. reflexivity.
Qed.

Lemma utoa_aux_small (k : nat) (n : Z) (acc : string) :
  0 <= n < 10 -> utoa_aux (S k) n acc = String (digit_char n) acc.
Proof.
  intros H. simpl. destruct (Z.ltb_spec n 10); [|lia]. now rewrite Z.mod_small.
Qed.

Lemma utoa_aux_step (k : nat) (n : Z) (acc : string) :
  10 <= n -> utoa_aux (S k) n acc = utoa_aux k (n / 10) (String (digit_char (n mod 10)) acc).
Proof. intros H. simpl. destruct (Z.ltb_spec n 10); [lia|reflexivity]. Qed.

(** The invariant of the printing loop, for [n] of at most [k] digits. *)
Lemma utoa_aux_digits (k : nat) (n : Z) :
  0 <= n < 10 ^ Z.of_nat (S k) ->
  horner 0 (utoa_aux (S k) n EmptyString) = n /\
  all_digits (utoa_aux (S k) n EmptyString) = true.
Proof.
  revert n. induction k as [|k IH]; intros n Hn;
    (destruct (Z.ltb_spec n 10) as [Hlt|Hge];
     [rewrite utoa_aux_small by lia; simpl;
      rewrite digit_char_is_digit, digit_char_val by lia; split; [lia|reflexivity]|]).
  - simpl in Hn. lia.
  - rewrite utoa_aux_step by exact Hge.
    pose proof (Z.mod_pos_bound n 10 ltac:(lia)) as Hm.
    assert (Hq : 0 <= n / 10 < 10 ^ Z.of_nat (S k)).
    { split; [apply Z.div_pos; lia|].
      apply Z.div_lt_upper_bound; [lia|].
      rewrite <- Z.pow_succ_r by lia. rewrite <- Nat2Z.inj_succ. lia. }
    destruct (IH _ Hq) as [H1 H2].
    rewrite utoa_aux_app, horner_app, all_digits_app, H1, H2. simpl.
    rewrite digit_char_is_digit, digit_char_val by lia.
    split; [|reflexivity]. pose proof (Z.div_mod n 10). lia.
Qed.

Lemma utoa_rounds (n : Z) : 0 <= n -> n < 10 ^ Z.of_nat (S (Z.to_nat (Z.log2 n))).
Proof.
  intros Hn. pose proof (Z.log2_nonneg n).
  rewrite Nat2Z.inj_succ, Z2Nat.id by lia.
  apply Z.lt_le_trans with (2 ^ Z.succ (Z.log2 n)).
  - destruct (Z.eq_dec n 0) as [->|Hne]; [reflexivity|].
    apply Z.log2_spec. lia.
  - apply Z.pow_le_mono_l. lia.
Qed.

(** [utoa n] is a non-empty string of decimal digits whose value is [n]. *)
Lemma utoa_spec (n : Z) :
  0 <= n ->
  horner 0 (utoa n) = n /\ all_digits (utoa n) = true /\ utoa n <> EmptyString.
Proof.
  intros Hn. unfold utoa.
  destruct (utoa_aux_digits _ n (conj Hn (utoa_rounds n Hn))) as [H1 H2].
  split; [exact H1|split; [exact H2|]].
  destruct (Z.ltb_spec n 10).
  - rewrite utoa_aux_small by lia. discriminate.
  - rewrite utoa_aux_step, utoa_aux_app by lia.
    intros E. apply (f_equal String.length) in E. rewrite string_length_app in E. simpl in E. lia.
Qed.

Lemma all_digits_no_byte (c : ascii) (s : string) :
  is_digit c = false -> all_digits s = true -> has_byte c s = false.
Proof.
  intros Hc. induction s as [|x r IH]; simpl; [reflexivity|].
  intros H. apply andb_true_iff in H as [Hx Hr].
  rewrite (IH Hr), orb_false_r. apply Ascii.eqb_neq. congruence.
Qed.

Lemma is_digit_val (c : ascii) : is_digit c = true -> 0 <= byte_val c - 48 <= 9.
Proof. unfold is_digit. intros H. apply andb_true_iff in H as [H1 H2]. zbool. lia. Qed.

(** A digit string of length [L] read after [n] lies in [[n*10^L, (n+1)*10^L)]. *)
Lemma horner_bound (s : string) (n : Z) :
  all_digits s = true -> 0 <= n ->
  n * 10 ^ Z.of_nat (String.length s) <= horner n s < (n + 1) * 10 ^ Z.of_nat (String.length s).
Proof.
  revert n. induction s as [|c r IH]; intros n Hd Hn; cbn [horner all_digits String.length] in *; [simpl; lia|].
  apply andb_true_iff in Hd as [Hc Hr]. apply is_digit_val in Hc.
  destruct (IH (n * 10 + (byte_val c - 48)) Hr ltac:(lia)) as [L U].
  rewrite Nat2Z.inj_succ, Z.pow_succ_r by lia.
  pose proof (Z.pow_pos_nonneg 10 (Z.of_nat (String.length r)) ltac:(lia) ltac:(lia)).
  split; nia.
Qed.

(** A non-empty string of decimal digits. *)
Definition is_digits (s : string) : bool :=
  match s with
  | EmptyString => false
  | _ => all_digits s
  end.

Lemma str_drop_length (i : nat) (s : string) :
  String.length (str_drop i s) = (String.length s - i)%nat.
Proof.
  revert i. induction s as [|c r IH]; intros [|i]; try reflexivity.
  - rewrite str_drop_0. reflexivity.
  - rewrite str_drop_cons. simpl. apply IH.
Qed.

Lemma str_take_app (a b : string) : str_take (String.length a) (a ++ b) = a.
Proof. induction a as [|c r IH]; [apply str_take_0|]. simpl. rewrite str_take_cons, IH. reflexivity. Qed.

Lemma str_drop_app (a b : string) : str_drop (String.length a) (a ++ b) = b.
Proof. induction a as [|c r IH]; [apply str_drop_0|]. simpl. rewrite str_drop_cons, IH. reflexivity. Qed.

Lemma is_digit_not_sign (c : ascii) :
  is_digit c = true -> Ascii.eqb c "+" = false /\ Ascii.eqb c "-" = false.
Proof.
  intros H. split; apply Ascii.eqb_neq; intros ->; discriminate.
Qed.

Lemma has_byte_app (c : ascii) (a b : string) :
  has_byte c (a ++ b) = has_byte c a || has_byte c b.
Proof. induction a as [|x r IH]; simpl; [reflexivity|]. now rewrite IH, orb_assoc. Qed.

(** A string holding the separator after [a] holds it. *)
Lemma has_byte_sep (c : ascii) (a b : string) : has_byte c (a ++ String c b) = true.
Proof. rewrite has_byte_app. simpl. rewrite Ascii.eqb_refl, orb_true_r. reflexivity. Qed.

(** Cutting at the last separator: when the parts after it hold none,
    [a ++ sep ++ c] determines [a] and [c]. *)
Lemma comma_split_unique (sep : ascii) (a c a' c' : string) :
  has_byte sep c = false -> has_byte sep c' = false ->
  (a ++ String sep c = a' ++ String sep c')%string -> a = a' /\ c = c'.
Proof.
  intros Hc Hc'. revert a'. induction a as [|x r IH]; intros [|y r'] E; simpl in E.
  - injection E as ->. auto.
  - injection E as <- ->. rewrite has_byte_sep in Hc. discriminate.
  - injection E as -> <-. rewrite has_byte_sep in Hc'. discriminate.
  - injection E as -> E. destruct (IH r' E) as [-> ->]. auto.
Qed.

(** A positive integer prints as its digits, with no sign. *)
Lemma Itoa_pos (z : Z) : 0 <= z -> Itoa z = utoa z.
Proof. intros H. unfold Itoa. destruct (Z.ltb_spec z 0); [lia|reflexivity]. Qed.
