(* ===== verification/GoFloat.v ===== *)
(** * float64

    The class [Float64] lists the float64 operations the program uses:
    the conversion [float64(i)] of an integer, [+], [*], [/], [<=], the
    truncating conversion [uint64(x)] and the verb [%.2f] of [fmt].  The
    code is written once against the class, and read in two models:

    - [IEEE]: Rocq's primitive binary64 floats, the arithmetic Go runs
      (round to nearest even, infinities, NaN, signed zero);
    - [Exact]: the rationals [Q], every operation exact: the real-number
      meaning of the formulas.

    [Float64Exact] states the laws of an exact model through a value map
    to [Q]; [Exact] satisfies them.  Go's untyped constants such as [0.45]
    are rounded once to float64: [dec 45 2] divides [45] by [100], both
    exact in binary64, and IEEE division rounds correctly, so it is the
    nearest double to [0.45]. *)

From Stdlib Require Import ZArith QArith Qround String Ascii Floats Lia.
From Stdlib Require Import Morphisms.
From S2P Require Import Prelude GoStrings.
Open Scope Z_scope.

Declare Scope gof_scope.
Delimit Scope gof_scope with gof.

Class Float64 (F : Type) := {
  of_Z : Z -> F;            (* float64(i) *)
  fadd : F -> F -> F;       (* x + y *)
  fmul : F -> F -> F;       (* x * y *)
  fdiv : F -> F -> F;       (* x / y *)
  fleb : F -> F -> bool;    (* x <= y *)
  ftrunc : F -> Z;          (* uint64(x), x >= 0 in range *)
  fmt2 : F -> string        (* fmt.Sprintf("%.2f", x) *)
}.

Infix "+" := fadd : gof_scope.
Infix "*" := fmul : gof_scope.
Infix "/" := fdiv : gof_scope.
Infix "<=?" := fleb : gof_scope.

(** The float64 value of the decimal constant [m * 10^-k]. *)
Definition dec {F} `{Float64 F} (m : Z) (k : nat) : F := fdiv (of_Z m) (of_Z (10 ^ Z.of_nat k)).

(** ** [%.2f] on an exact value *)

(** Round a non-negative rational to the nearest integer, ties to even:
    [strconv]'s rounding of the exact decimal expansion. *)
Definition round_half_even (q : Q) : Z :=
  let n := Qfloor q in
  match (q - inject_Z n ?= 1 # 2)%Q with
  | Lt => n
  | Gt => n + 1
  | Eq => if Z.even n then n else n + 1
  end.

Definition two_digits (c : Z) : string :=
  String (digit_char (c / 10)) (String (digit_char (c mod 10)) EmptyString).

(** [%.2f] of [-q] when [neg], of [q] otherwise, for [q >= 0]. *)
Definition fmt_fixed2 (neg : bool) (q : Q) : string :=
  let c := round_half_even (q * 100) in
  ((if neg then "-" else "") ++ utoa (c / 100) ++ "." ++ two_digits (c mod 100))%string.

Definition fmt_Q (q : Q) : string :=
  if Qlt_le_dec q 0 then fmt_fixed2 true (- q) else fmt_fixed2 false q.

(** ** The IEEE model *)

Definition sf_prec : Z := FloatOps.prec.
Definition sf_emax : Z := FloatOps.emax.

(** [float64(i)]: round the integer to the nearest double. *)
Definition ieee_of_Z (z : Z) : float :=
  SF2Prim (SpecFloat.binary_normalize sf_prec sf_emax z 0 false).

(** The exact value [m * 2^e] of a finite double. *)
Definition mant_exp_Q (m : positive) (e : Z) : Q :=
  if 0 <=? e then inject_Z (Zpos m * 2 ^ e) else Zpos m # Z.to_pos (2 ^ (- e)).

Definition ieee_trunc (x : float) : Z :=
  match Prim2SF x with
  | S754_finite s m e =>
      let t := if 0 <=? e then Zpos m * 2 ^ e else Zpos m / 2 ^ (- e) in
      if s then - t else t
  | _ => 0
  end.

(** [%.2f]: [+Inf], [-Inf] and [NaN] are printed as words; a negative
    zero keeps its sign. *)
Definition ieee_fmt2 (x : float) : string :=
  match Prim2SF x with
  | S754_zero s => fmt_fixed2 s 0
  | S754_infinity s => if s then "-Inf" else "+Inf"
  | S754_nan => "NaN"
  | S754_finite s m e => fmt_fixed2 s (mant_exp_Q m e)
  end.

#[export] Instance IEEE : Float64 float := {|
  of_Z := ieee_of_Z;
  fadd := PrimFloat.add;
  fmul := PrimFloat.mul;
  fdiv := PrimFloat.div;
  fleb := PrimFloat.leb;
  ftrunc := ieee_trunc;
  fmt2 := ieee_fmt2
|}.

(** ** NaN in the IEEE model

    [x] is NaN exactly when its SpecFloat form is [S754_nan]; a NaN
    operand of [*] or the dividend of [/] gives NaN, and [NaN <= y] is
    false, so a NaN passes every guard [x <= 0]. *)

Lemma ieee_is_nan_iff (x : float) : PrimFloat.is_nan x = true <-> Prim2SF x = S754_nan.
Proof.
  unfold PrimFloat.is_nan. rewrite FloatAxioms.eqb_spec.
  destruct (Prim2SF x) as [s|s| |s m e]; unfold SpecFloat.SFeqb, SpecFloat.SFcompare;
    split; intros H; try discriminate; auto.
  - destruct s; discriminate.
  - rewrite Z.compare_refl, Pos.compare_cont_refl in H. destruct s; discriminate.
Qed.

Lemma ieee_nan_mul_l (x y : float) : Prim2SF x = S754_nan -> Prim2SF (x * y)%float = S754_nan.
Proof. intros H. rewrite FloatAxioms.mul_spec, H. reflexivity. Qed.

Lemma ieee_nan_mul_r (x y : float) : Prim2SF y = S754_nan -> Prim2SF (x * y)%float = S754_nan.
Proof. intros H. rewrite FloatAxioms.mul_spec, H. destruct (Prim2SF x); reflexivity. Qed.

Lemma ieee_nan_div_l (x y : float) : Prim2SF x = S754_nan -> Prim2SF (x / y)%float = S754_nan.
Proof. intros H. rewrite FloatAxioms.div_spec, H. reflexivity. Qed.

Lemma ieee_nan_leb_l (x y : float) : Prim2SF x = S754_nan -> (x <=? y)%float = false.
Proof. intros H. rewrite FloatAxioms.leb_spec, H. reflexivity. Qed.

Lemma ieee_nan_fmt2 (x : float) : Prim2SF x = S754_nan -> ieee_fmt2 x = "NaN"%string.
Proof. intros H. unfold ieee_fmt2. rewrite H. reflexivity. Qed.

(** ** The exact model *)

(** Truncation toward zero. *)
Definition Q_trunc (q : Q) : Z := if Qlt_le_dec q 0 then - Qfloor (- q) else Qfloor q.

#[export] Instance Exact : Float64 Q := {|
  of_Z := inject_Z;
  fadd := Qplus;
  fmul := Qmult;
  fdiv := Qdiv;
  fleb := Qle_bool;
  ftrunc := Q_trunc;
  fmt2 := fmt_Q
|}.

(** The laws of an exact model, through its value in [Q]. *)
Class Float64Exact (F : Type) `{Float64 F} := {
  fval : F -> Q;
  fval_of_Z : forall z, fval (of_Z z) == inject_Z z;
  fval_add : forall x y, fval (fadd x y) == fval x + fval y;
  fval_mul : forall x y, fval (fmul x y) == fval x * fval y;
  fval_div : forall x y, ~ fval y == 0 -> fval (fdiv x y) == fval x / fval y;
  fval_leb : forall x y, fleb x y = Qle_bool (fval x) (fval y);
  fval_trunc : forall x, (0 <= fval x)%Q -> ftrunc x = Qfloor (fval x);
  fval_fmt2 : forall x, fmt2 x = fmt_Q (fval x)
}.

(** ** [Q]'s equality [==] is respected by the printing functions *)

#[export] Instance Qfloor_Proper : Proper (Qeq ==> eq) Qfloor.
Proof.
  intros x y E. apply Z.le_antisymm; apply Qfloor_resp_le; rewrite E; apply Qle_refl.
Qed.

#[export] Instance round_half_even_Proper : Proper (Qeq ==> eq) round_half_even.
Proof.
  intros x y E. unfold round_half_even. rewrite (Qfloor_Proper x y E).
  replace ((x - inject_Z (Qfloor y) ?= 1 # 2)%Q) with ((y - inject_Z (Qfloor y) ?= 1 # 2)%Q);
    [reflexivity|].
  apply Qcompare_comp; [rewrite E|]; reflexivity.
Qed.

#[export] Instance fmt_fixed2_Proper (neg : bool) : Proper (Qeq ==> eq) (fmt_fixed2 neg).
Proof.
  intros x y E. unfold fmt_fixed2.
  assert (round_half_even (x * 100) = round_half_even (y * 100)) as ->; [|reflexivity].
  apply round_half_even_Proper. rewrite E. reflexivity.
Qed.

#[export] Instance fmt_Q_Proper : Proper (Qeq ==> eq) fmt_Q.
Proof.
  intros x y E. unfold fmt_Q.
  destruct (Qlt_le_dec x 0) as [Hx|Hx], (Qlt_le_dec y 0) as [Hy|Hy].
  - apply fmt_fixed2_Proper. rewrite E. reflexivity.
  - rewrite E in Hx. exfalso. exact (Qlt_not_le _ _ Hx Hy).
  - rewrite E in Hx. exfalso. exact (Qlt_not_le _ _ Hy Hx).
  - apply fmt_fixed2_Proper. exact E.
Qed.

#[export] Instance ExactLaws : Float64Exact Q.
Proof.
  refine {| fval := fun q => q |}; simpl; intros; try reflexivity.
  unfold Q_trunc. destruct (Qlt_le_dec x 0); [|reflexivity].
  exfalso. eapply Qlt_not_le; eassumption.
Defined.

(** ** Lemmas of an exact model *)

Lemma inject_Z_nonzero (z : Z) : z <> 0 -> ~ inject_Z z == 0.
Proof. intros Hz E. unfold Qeq in E. simpl in E. lia. Qed.

(** The value of a finite double, for stating numeric results. *)
Definition ieee_value (x : float) : option Q :=
  match Prim2SF x with
  | S754_zero _ => Some 0%Q
  | S754_finite s m e => Some (if s then - mant_exp_Q m e else mant_exp_Q m e)%Q
  | _ => None
  end.

(** Evaluate the closed integer constants under [inject_Z], so that
    [field] sees literals. *)
Ltac qconst :=
  repeat match goal with
         | |- context [inject_Z ?z] =>
             let v := eval vm_compute in z in
             progress change z with v
         end.

Section ExactLemmas.
Context {F : Type} `{FE : Float64Exact F}.

Lemma fval_dec (m : Z) (k : nat) : fval (dec m k) == inject_Z m / inject_Z (10 ^ Z.of_nat k).
Proof.
  unfold dec. rewrite fval_div, !fval_of_Z; [reflexivity|].
  rewrite fval_of_Z. apply inject_Z_nonzero.
  pose proof (Z.pow_pos_nonneg 10 (Z.of_nat k)). lia.
Qed.

(** Go's guard [x <= 0] in an exact model. *)
Lemma fleb_zero_iff (x : F) : fleb x (of_Z 0) = true <-> (fval x <= 0)%Q.
Proof. rewrite fval_leb, Qle_bool_iff, fval_of_Z. reflexivity. Qed.

Lemma fleb_zero_pos (x : F) : (0 < fval x)%Q -> fleb x (of_Z 0) = false.
Proof.
  intros Hx. destruct (fleb x (of_Z 0)) eqn:E; [|reflexivity].
  apply fleb_zero_iff in E. exfalso. exact (Qlt_not_le _ _ Hx E).
Qed.

End ExactLemmas.
