(* ===== verification/GoError.v ===== *)
(** * Go's [error] values of the program

    An [error] is one of the values the program can meet:
    - [NumError f num kind]: a [*strconv.NumError] of function [f] on
      input [num], [kind] being [strconv.ErrSyntax] or [strconv.ErrRange];
    - the three errors of [time.ParseDuration], which build a fresh
      [errors.New] value from the input: "invalid duration", "missing
      unit", "unknown unit";
    - [ErrorString var msg]: the value of a package variable
      [var = errors.New(msg)]; the variable's qualified name is its
      identity, as the pointer of [errors.New] is in Go, so that
      [daysteps.ErrZeroSteps] and [spentcalories.ErrZeroSteps] differ
      though their messages agree.

    [Error] renders the message of the values whose text is fixed. *)

From Stdlib Require Import String.
From stdpp Require Import base decidable strings.
From S2P Require Import Prelude.

Inductive NumErrKind : Type :=
| ErrSyntax        (* "invalid syntax" *)
| ErrRange.        (* "value out of range" *)

Inductive error : Type :=
| NumError (Func : string) (Num : string) (Err : NumErrKind)
| DurationInvalid (orig : string)
| DurationMissingUnit (orig : string)
| DurationUnknownUnit (u : string) (orig : string)
| ErrorString (var : string) (msg : string).

#[export] Instance NumErrKind_eq_dec : EqDecision NumErrKind.
Proof. solve_decision. Defined.

#[export] Instance error_eq_dec : EqDecision error.
Proof. solve_decision. Defined.

(** The message of an [errors.New] value. *)
Definition Error (e : error) : option string :=
  match e with
  | ErrorString _ msg => Some msg
  | _ => None
  end.

(** A result with a Go error. *)
Abbreviation goresult := (result error).
