(* ===== verification/Strconv.v ===== *)
(** * [strconv.Atoi]

    Go's [Atoi(s)] on a 64-bit platform: a fast path for [0 < len(s) < 19]
    (an optional sign, then bytes [ch - '0'] checked to be at most [9] in
    byte arithmetic, accumulated as [n*10 + ch]), and a slow path through
    [ParseInt(s, 10, 0)], which strips the sign and calls
    [ParseUint(s, 10, 64)]; [ParseUint] checks each byte and the two
    uint64 overflows ([n >= cutoff] before [n*10], and [n1 < n || n1 >
    maxVal] after the wrapping addition).  [ParseUint] and [ParseInt]
    return a value beside the error, as Go does, because [ParseInt] reads
    [ParseUint]'s value on a range error. *)

From Stdlib Require Import ZArith String Ascii List Lia Bool.
From S2P Require Import Prelude GoStrings GoError.
Import ListNotations.
Open Scope Z_scope.

Definition syntaxError (fn s : string) : error := NumError fn s ErrSyntax.
Definition rangeError (fn s : string) : error := NumError fn s ErrRange.

Definition maxUint64 : Z := 2 ^ 64 - 1.

(** [lower(c) = c | ('x' - 'X')] *)
Definition lower (b : Z) : Z := Z.lor b 32.

(** The digit value of a byte in [ParseUint]'s switch: ['0'..'9'], then
    letters as digits [10..35]; [None] for the [default] branch. *)
Definition digit_value (b : Z) : option Z :=
  if (48 <=? b) && (b <=? 57) then Some (b - 48)
  else if (97 <=? lower b) && (lower b <=? 122) then Some (lower b - 97 + 10)
  else None.

(** The loop of [ParseUint(s0, 10, 64)] over the bytes [s] left, with the
    accumulator [n]; the result is Go's [(value, error)] pair. *)
Fixpoint parseUint_loop (s0 s : string) (n : Z) : Z * option error :=
  match s with
  | EmptyString => (n, None)
  | String c r =>
      match digit_value (byte_val c) with
      | None => (0, Some (syntaxError "ParseUint" s0))
      | Some d =>
          if 10 <=? d then (0, Some (syntaxError "ParseUint" s0))
          else if maxUint64 / 10 + 1 <=? n then (maxUint64, Some (rangeError "ParseUint" s0))
          else
            let n10 := n * 10 in
            let n1 := wrap_uint64 (n10 + d) in
            if (n1 <? n10) || (maxUint64 <? n1) then (maxUint64, Some (rangeError "ParseUint" s0))
            else parseUint_loop s0 r n1
      end
  end.

(** [strconv.ParseUint(s, 10, 64)] *)
Definition ParseUint (s : string) : Z * option error :=
  match s with
  | EmptyString => (0, Some (syntaxError "ParseUint" s))
  | _ => parseUint_loop s s 0
  end.

(** [strconv.ParseInt(s, 10, 0)] with [IntSize = 64]. *)
Definition ParseInt (s : string) : Z * option error :=
  match s with
  | EmptyString => (0, Some (syntaxError "ParseInt" s))
  | String c r =>
      let s0 := s in
      let '(neg, s') :=
        if Ascii.eqb c "+" then (false, r)
        else if Ascii.eqb c "-" then (true, r)
        else (false, s) in
      let '(un, err) := ParseUint s' in
      match err with
      | Some (NumError _ _ ErrSyntax) => (0, Some (NumError "ParseInt" s0 ErrSyntax))
      | _ =>
          let cutoff := 2 ^ 63 in
          if negb neg && (cutoff <=? un) then (cutoff - 1, Some (rangeError "ParseInt" s0))
          else if neg && (cutoff <? un) then (- cutoff, Some (rangeError "ParseInt" s0))
          else
            let n := wrap_int64 un in
            (if neg then wrap_int64 (- n) else n, None)
      end
  end.

(** The loop of the fast path: [ch -= '0'] wraps in a byte. *)
Fixpoint atoi_fast_loop (s0 s : string) (n : Z) : goresult Z :=
  match s with
  | EmptyString => Ok n
  | String c r =>
      let ch := (byte_val c - 48) mod 256 in
      if 9 <? ch then Err (syntaxError "Atoi" s0)
      else atoi_fast_loop s0 r (n * 10 + ch)
  end.

(** The fast path, for [0 < len(s) < 19]. *)
Definition atoi_fast (s : string) : goresult Z :=
  match s with
  | EmptyString => Err (syntaxError "Atoi" s)
  | String c r =>
      if Ascii.eqb c "-" || Ascii.eqb c "+" then
        match r with
        | EmptyString => Err (syntaxError "Atoi" s)
        | _ => rmap (fun n => if Ascii.eqb c "-" then - n else n) (atoi_fast_loop s r 0)
        end
      else atoi_fast_loop s s 0
  end.

(** The slow path: [ParseInt], the error's [Func] renamed to ["Atoi"]. *)
Definition atoi_slow (s : string) : goresult Z :=
  let '(i64, err) := ParseInt s in
  match err with
  | None => Ok i64
  | Some (NumError _ num k) => Err (NumError "Atoi" num k)
  | Some e => Err e
  end.

(** [strconv.Atoi] *)
Definition Atoi (s : string) : goresult Z :=
  let sLen := Z.of_nat (String.length s) in
  if (0 <? sLen) && (sLen <? 19) then atoi_fast s else atoi_slow s.

(** ** Byte classification *)

(** The fast path's check [ch - '0' > 9] in byte arithmetic is [!isDigit]. *)
Lemma fast_digit_check (c : ascii) :
  (9 <? (byte_val c - 48) mod 256) = negb (is_digit c) /\
  (is_digit c = true -> (byte_val c - 48) mod 256 = byte_val c - 48).
Proof.
  pose proof (byte_val_range c). unfold is_digit.
  destruct (Z.leb_spec 48 (byte_val c)), (Z.leb_spec (byte_val c) 57); simpl;
    [ rewrite Z.mod_small by lia; split; [apply Z.ltb_ge; lia|auto]
    | rewrite Z.mod_small by lia; split; [apply Z.ltb_lt; lia|discriminate]
    | rewrite <- (Z.mod_add _ 1) by lia; rewrite Z.mod_small by lia;
      split; [apply Z.ltb_lt; lia|discriminate]
    | lia ].
Qed.

(** [ParseUint]'s switch: a digit has its value, any other byte a value of
    at least [10] or none. *)
Lemma digit_value_digit (c : ascii) :
  is_digit c = true -> digit_value (byte_val c) = Some (byte_val c - 48).
Proof. unfold digit_value, is_digit. now intros ->. Qed.

Lemma digit_value_other (c : ascii) (d : Z) :
  is_digit c = false -> digit_value (byte_val c) = Some d -> 10 <= d.
Proof.
  unfold digit_value, is_digit. intros -> H.
  destruct ((97 <=? lower (byte_val c)) && (lower (byte_val c) <=? 122)) eqn:E; [|discriminate].
  apply andb_true_iff in E as [E _]. zbool. injection H as <-. lia.
Qed.

(** ** The loops *)

Lemma cutoff10_val : maxUint64 / 10 + 1 = 1844674407370955162.
Proof. reflexivity. Qed.

Lemma atoi_fast_loop_spec (s0 s : string) (n : Z) :
  atoi_fast_loop s0 s n =
  if all_digits s then Ok (horner n s) else Err (syntaxError "Atoi" s0).
Proof.
  revert n. induction s as [|c r IH]; intros n; [reflexivity|].
  cbn [atoi_fast_loop all_digits horner]. destruct (fast_digit_check c) as [-> Hv].
  destruct (is_digit c) eqn:Hc; simpl; [rewrite Hv by reflexivity; apply IH|reflexivity].
Qed.

(** [ParseUint]'s loop on a string too short to overflow. *)
Lemma parseUint_loop_short (s0 s : string) (n : Z) :
  0 <= n -> (n + 1) * 10 ^ Z.of_nat (String.length s) <= 2 ^ 64 ->
  parseUint_loop s0 s n =
  if all_digits s then (horner n s, None) else (0, Some (syntaxError "ParseUint" s0)).
Proof.
  revert n. induction s as [|c r IH]; intros n Hn Hb; [reflexivity|].
  cbn [parseUint_loop all_digits horner String.length] in *.
  rewrite Nat2Z.inj_succ, Z.pow_succ_r in Hb by lia.
  pose proof (Z.pow_pos_nonneg 10 (Z.of_nat (String.length r)) ltac:(lia) ltac:(lia)).
  destruct (is_digit c) eqn:Hc; simpl.
  - rewrite digit_value_digit by exact Hc. apply is_digit_val in Hc.
    rewrite cutoff10_val. unfold maxUint64, wrap_uint64.
    rewrite Z.mod_small by nia.
    destruct (Z.leb_spec 10 (byte_val c - 48)); [lia|].
    destruct (Z.leb_spec 1844674407370955162 n); [nia|].
    destruct (Z.ltb_spec (n * 10 + (byte_val c - 48)) (n * 10)); [lia|].
    destruct (Z.ltb_spec (2 ^ 64 - 1) (n * 10 + (byte_val c - 48))); [nia|].
    apply IH; nia.
  - destruct (digit_value (byte_val c)) as [d|] eqn:Hd; [|reflexivity].
    apply digit_value_other in Hd; [|exact Hc].
    destruct (Z.leb_spec 10 d); [reflexivity|lia].
Qed.

(** [ParseUint]'s loop on digits whose value fits in a uint64. *)
Lemma parseUint_loop_digits (s0 s : string) (n : Z) :
  all_digits s = true -> 0 <= n -> horner n s <= maxUint64 ->
  parseUint_loop s0 s n = (horner n s, None).
Proof.
  revert n. induction s as [|c r IH]; intros n Hd Hn Hb; [reflexivity|].
  cbn [parseUint_loop all_digits horner] in *.
  apply andb_true_iff in Hd as [Hc Hr].
  rewrite digit_value_digit by exact Hc. apply is_digit_val in Hc.
  pose proof (horner_bound r (n * 10 + (byte_val c - 48)) Hr ltac:(lia)) as [L _].
  pose proof (Z.pow_pos_nonneg 10 (Z.of_nat (String.length r)) ltac:(lia) ltac:(lia)).
  rewrite cutoff10_val. unfold maxUint64, wrap_uint64 in *.
  rewrite Z.mod_small by nia.
  destruct (Z.leb_spec 10 (byte_val c - 48)); [lia|].
  destruct (Z.leb_spec 1844674407370955162 n); [nia|].
  destruct (Z.ltb_spec (n * 10 + (byte_val c - 48)) (n * 10)); [lia|].
  destruct (Z.ltb_spec (2 ^ 64 - 1) (n * 10 + (byte_val c - 48))); [nia|].
  apply IH; auto; lia.
Qed.

(** ** The fast path agrees with the slow path *)

(** On at most 18 bytes, [ParseUint] cannot overflow. *)
Lemma ParseUint_short (s : string) :
  (String.length s <= 18)%nat ->
  ParseUint s = if is_digits s then (horner 0 s, None) else (0, Some (syntaxError "ParseUint" s)).
Proof.
  intros Hl. destruct s as [|c r]; [reflexivity|].
  unfold ParseUint. rewrite parseUint_loop_short; [reflexivity|lia|].
  assert (10 ^ Z.of_nat (String.length (String c r)) <= 10 ^ 18) by (apply Z.pow_le_mono_r; lia).
  lia.
Qed.
Lemma horner_short (s : string) :
  all_digits s = true -> (String.length s <= 18)%nat -> 0 <= horner 0 s < 2 ^ 63.
Proof.
  intros D Hl. pose proof (horner_bound s 0 D ltac:(lia)).
  assert (10 ^ Z.of_nat (String.length s) <= 10 ^ 18) by (apply Z.pow_le_mono_r; lia).
  lia.
Qed.

(** [Atoi]'s fast path computes what [ParseInt] computes, error values
    included, on every string it is taken for. *)
Theorem atoi_fast_eq_slow (s : string) :
  (0 < String.length s < 19)%nat -> atoi_fast s = atoi_slow s.
Proof.
  intros Hl. destruct s as [|c r]; [simpl in Hl; lia|].
  cbn [String.length] in Hl.
  unfold atoi_fast, atoi_slow, ParseInt.
  destruct (Ascii.eqb c "-") eqn:Em, (Ascii.eqb c "+") eqn:Ep; cbn iota beta.
  - apply Ascii.eqb_eq in Em, Ep. congruence.
  - rewrite ParseUint_short by lia.
    destruct r as [|c' r']; [reflexivity|].
    rewrite atoi_fast_loop_spec. change (is_digits (String c' r')) with (all_digits (String c' r')).
    destruct (all_digits (String c' r')) eqn:D; [|reflexivity].
    pose proof (horner_short _ D ltac:(lia)).
    set (h := horner 0 (String c' r')) in *. simpl orb; simpl negb; simpl andb.
    destruct (Z.ltb_spec (2^63) h); [lia|]. simpl.
    rewrite wrap_int64_opp, wrap_int64_id; [reflexivity|unfold in_int64; lia].
  - rewrite ParseUint_short by lia.
    destruct r as [|c' r']; [reflexivity|].
    rewrite atoi_fast_loop_spec. change (is_digits (String c' r')) with (all_digits (String c' r')).
    destruct (all_digits (String c' r')) eqn:D; [|reflexivity].
    pose proof (horner_short _ D ltac:(lia)).
    set (h := horner 0 (String c' r')) in *. simpl orb; simpl negb; simpl andb.
    destruct (Z.leb_spec (2^63) h); [lia|]. simpl.
    rewrite wrap_int64_id; [reflexivity|unfold in_int64; lia].
  - rewrite ParseUint_short by (simpl; lia).
    cbn [orb]. rewrite atoi_fast_loop_spec. change (is_digits (String c r)) with (all_digits (String c r)).
    destruct (all_digits (String c r)) eqn:D; [|reflexivity].
    pose proof (horner_short _ D ltac:(simpl; lia)).
    set (h := horner 0 (String c r)) in *. simpl negb; simpl andb.
    destruct (Z.leb_spec (2^63) h); [lia|]. simpl.
    rewrite wrap_int64_id; [reflexivity|unfold in_int64; lia].
Qed.

(** Hence [Atoi] is [ParseInt] with the error renamed, on every string. *)
Lemma Atoi_eq_slow (s : string) : Atoi s = atoi_slow s.
Proof.
  unfold Atoi. destruct ((0 <? _) && (_ <? 19)) eqn:E; [|reflexivity].
  apply andb_true_iff in E as [E1 E2]. zbool. apply atoi_fast_eq_slow. lia.
Qed.

(** ** Results of [ParseInt] *)

Lemma ParseUint_digits (s : string) :
  is_digits s = true -> horner 0 s <= maxUint64 -> ParseUint s = (horner 0 s, None).
Proof.
  destruct s as [|c r]; [discriminate|]. intros D B.
  unfold ParseUint. apply parseUint_loop_digits; [exact D|lia|exact B].
Qed.


(** The error of [ParseInt s] is a [NumError] on [s]. *)
Lemma ParseInt_error (s : string) (v : Z) (e : error) :
  ParseInt s = (v, Some e) -> exists k, e = NumError "ParseInt" s k.
Proof.
  unfold ParseInt. destruct s as [|c r]; [intros [=]; eauto|].
  destruct (if Ascii.eqb c "+" then _ else _) as [neg s'].
  destruct (ParseUint s') as [un [[f num [|]|o|o|u o|x m]|]]; case_ifs; intros [=]; eauto.
Qed.

(** A value returned without error is an int64. *)
Lemma ParseInt_value (s : string) (v : Z) :
  ParseInt s = (v, None) -> in_int64 v.
Proof.
  unfold ParseInt. destruct s as [|c r]; [intros [=]|].
  destruct (if Ascii.eqb c "+" then _ else _) as [neg s'].
  destruct (ParseUint s') as [un [[f num [|]|o|o|u o|x m]|]]; case_ifs; intros [=];
    subst; auto with go4sprint.
Qed.

(** ** [Atoi] *)

(** [Atoi] returns an int64 or a [NumError] of ["Atoi"] on its input. *)
Theorem Atoi_result (s : string) :
  match Atoi s with
  | Ok n => in_int64 n
  | Err e => exists k, e = NumError "Atoi" s k
  end.
Proof.
  rewrite Atoi_eq_slow. unfold atoi_slow.
  destruct (ParseInt s) as [v [e|]] eqn:P.
  - destruct (ParseInt_error _ _ _ P) as [k ->]. eauto.
  - exact (ParseInt_value _ _ P).
Qed.

(** Printing an int64 with [%v] and reading it back with [Atoi] is the
    identity. *)
Theorem Atoi_Itoa (z : Z) : in_int64 z -> Atoi (Itoa z) = Ok z.
Proof.
  intros Hz. unfold in_int64 in Hz. rewrite Atoi_eq_slow. unfold Itoa, atoi_slow.
  destruct (Z.ltb_spec z 0) as [Hneg|Hpos].
  - destruct (utoa_spec (- z) ltac:(lia)) as (H1 & H2 & H3).
    unfold ParseInt. change (Ascii.eqb "-" "+") with false. change (Ascii.eqb "-" "-") with true.
    cbn iota beta. rewrite ParseUint_digits.
    + rewrite H1. simpl negb. simpl andb.
      destruct (Z.ltb_spec (2 ^ 63) (- z)); [lia|].
      rewrite wrap_int64_opp, Z.opp_involutive, wrap_int64_id; [reflexivity|unfold in_int64; lia].
    + destruct (utoa (- z)); [contradiction|exact H2].
    + unfold maxUint64. lia.
  - destruct (utoa_spec z ltac:(lia)) as (H1 & H2 & H3).
    destruct (utoa z) as [|c r] eqn:U; [contradiction|].
    pose proof H2 as H2'. simpl in H2'. apply andb_true_iff in H2' as [Hc _].
    destruct (is_digit_not_sign c Hc) as [Hp Hm].
    unfold ParseInt. rewrite Hp, Hm. cbn iota beta.
    rewrite ParseUint_digits by (simpl in *; auto; unfold maxUint64; lia).
    rewrite H1. simpl negb. simpl andb.
    destruct (Z.leb_spec (2 ^ 63) z); [lia|].
    rewrite wrap_int64_id; [reflexivity|unfold in_int64; lia].
Qed.
