(* ===== verification/GoTime.v ===== *)
(** * [time.Duration] and [time.ParseDuration]

    A [Duration] is an int64 count of nanoseconds.  [Hours] and [Minutes]
    split it with Go's truncating [/] and [%] and convert both parts to
    float64.  [ParseDuration] follows Go's [time/format.go]: an optional
    sign, the special case ["0"], then rounds of digits, an optional fraction and a unit,
    read by [leadingInt] (uint64, error above [2^63]) and
    [leadingFraction] (stops accumulating precision on overflow), a unit
    from [unitMap], the fraction scaled in float64, and the sum [d]
    accumulated in a uint64 that wraps.  The float operations come from
    the [Float64] model in context.

    The loop is a [Fixpoint] on fuel; each round consumes at least one
    byte, so [String.length s] rounds are enough ([parse_loop_fuel]).
    [ParseDuration_wrap] shows the wrap-around: two components of [2^63]
    ns in front of an unsigned duration leave its value unchanged. *)

From Stdlib Require Import ZArith String Ascii List Lia Bool QArith.
From S2P Require Import Prelude GoStrings GoFloat GoError.
Import ListNotations.
Open Scope Z_scope.

Definition Nanosecond : Z := 1.
Definition Microsecond : Z := 1000 * Nanosecond.
Definition Millisecond : Z := 1000 * Microsecond.
Definition Second : Z := 1000 * Millisecond.
Definition Minute : Z := 60 * Second.
Definition Hour : Z := 60 * Minute.

(** [unitMap]; ["µs"] is U+00B5 and ["μs"] U+03BC, in UTF-8. *)
Definition unitMap (u : string) : option Z :=
  if String.eqb u "ns" then Some Nanosecond
  else if String.eqb u "us" then Some Microsecond
  else if String.eqb u "µs" then Some Microsecond
  else if String.eqb u "μs" then Some Microsecond
  else if String.eqb u "ms" then Some Millisecond
  else if String.eqb u "s" then Some Second
  else if String.eqb u "m" then Some Minute
  else if String.eqb u "h" then Some Hour
  else None.

(** [leadingInt]: the leading digits of [s] read after [x]; [None] is
    [errLeadingInt] (the value passes [2^63]). *)
Fixpoint leadingInt (s : string) (x : Z) : option (Z * string) :=
  match s with
  | EmptyString => Some (x, EmptyString)
  | String c r =>
      if negb (is_digit c) then Some (x, s)
      else if 2 ^ 63 / 10 <? x then None
      else
        let x' := x * 10 + byte_val c - 48 in
        if 2 ^ 63 <? x' then None else leadingInt r x'
  end.

Section WithFloat.
Context {F : Type} `{Float64 F}.
Local Open Scope gof_scope.

(** [leadingFraction]: the leading digits of [s] as the fraction
    [x / scale]; past [2^63] the digits are skipped. *)
Fixpoint leadingFraction (s : string) (x : Z) (scale : F) (overflow : bool)
  : Z * F * string :=
  match s with
  | EmptyString => (x, scale, EmptyString)
  | String c r =>
      if negb (is_digit c) then (x, scale, s)
      else if overflow then leadingFraction r x scale true
      else if ((2 ^ 63 - 1) / 10 <? x)%Z then leadingFraction r x scale true
      else
        let y := (x * 10 + byte_val c - 48)%Z in
        if (2 ^ 63 <? y)%Z then leadingFraction r x scale true
        else leadingFraction r y (scale * of_Z 10) false
  end.

(** The length of the unit: the bytes before the first ['.'] or digit. *)
Fixpoint unit_len (s : string) : nat :=
  match s with
  | EmptyString => O
  | String c r => if Ascii.eqb c "." || is_digit c then O else S (unit_len r)
  end.

(** One round of the loop of [ParseDuration] on a non-empty [s], with the
    sum [d] so far: the new sum and the bytes left. *)
Definition duration_round (orig s : string) (d : Z) : goresult (Z * string) :=
  let invalid := Err (DurationInvalid orig) in
  match s with
  | EmptyString => Ok (d, s)
  | String c0 _ =>
      (* The next character must be a digit or a period *)
      if negb (Ascii.eqb c0 "." || is_digit c0) then invalid else
      match leadingInt s 0 with
      | None => invalid
      | Some (v, s1) =>
          let pre := negb (Nat.eqb (String.length s) (String.length s1)) in
          (* Consume an optional fraction *)
          let '(f, scale, s2, post) :=
            match s1 with
            | String c1 r1 =>
                if Ascii.eqb c1 "." then
                  let '(f, scale, s2) := leadingFraction r1 0 (of_Z 1) false in
                  (f, scale, s2, negb (Nat.eqb (String.length r1) (String.length s2)))
                else (0%Z, of_Z 1, s1, false)
            | EmptyString => (0%Z, of_Z 1, s1, false)
            end in
          if negb pre && negb post then invalid else
          (* Consume unit. *)
          let i := unit_len s2 in
          if Nat.eqb i 0 then Err (DurationMissingUnit orig) else
          let u := str_take i s2 in
          let s3 := str_drop i s2 in
          match unitMap u with
          | None => Err (DurationUnknownUnit u orig)
          | Some unit =>
              if (2 ^ 63 / unit <? v)%Z then invalid else
              let v1 := (v * unit)%Z in
              if (0 <? f)%Z then
                let v2 := wrap_uint64 (v1 + ftrunc (of_Z f * (of_Z unit / scale))) in
                if (2 ^ 63 <? v2)%Z then invalid else
                let d' := wrap_uint64 (d + v2) in
                if (2 ^ 63 <? d')%Z then invalid else Ok (d', s3)
              else
                let d' := wrap_uint64 (d + v1) in
                if (2 ^ 63 <? d')%Z then invalid else Ok (d', s3)
          end
      end
  end.

(** The loop [for s != ""], on fuel: [None] when the fuel runs out. *)
Fixpoint duration_loop (fuel : nat) (orig s : string) (d : Z) : option (goresult Z) :=
  match s with
  | EmptyString => Some (Ok d)
  | _ =>
      match fuel with
      | O => None
      | S k =>
          match duration_round orig s d with
          | Err e => Some (Err e)
          | Ok (d', s') => duration_loop k orig s' d'
          end
      end
  end.

(** [time.ParseDuration] *)
Definition ParseDuration (s : string) : goresult Z :=
  let orig := s in
  let '(neg, s) :=
    match s with
    | String c r => if Ascii.eqb c "-" || Ascii.eqb c "+" then (Ascii.eqb c "-", r) else (false, s)
    | EmptyString => (false, s)
    end in
  if String.eqb s "0" then Ok 0%Z else
  if String.eqb s "" then Err (DurationInvalid orig) else
  match duration_loop (String.length s) orig s 0 with
  | None => Err (DurationInvalid orig)
  | Some (Err e) => Err e
  | Some (Ok d) =>
      if neg then Ok (wrap_int64 (- wrap_int64 d))
      else if (2 ^ 63 - 1 <? d)%Z then Err (DurationInvalid orig)
      else Ok d
  end.

(** [Duration.Hours] *)
Definition Hours (d : Z) : F :=
  let hour := Z.quot d Hour in
  let nsec := Z.rem d Hour in
  of_Z hour + of_Z nsec / of_Z (60 * 60 * 10 ^ 9).

(** [Duration.Minutes] *)
Definition Minutes (d : Z) : F :=
  let min := Z.quot d Minute in
  let nsec := Z.rem d Minute in
  of_Z min + of_Z nsec / of_Z (60 * 10 ^ 9).

End WithFloat.

(** ** Termination of the loop *)

Lemma leadingInt_rest (s : string) (x v : Z) (r : string) :
  leadingInt s x = Some (v, r) -> (String.length r <= String.length s)%nat.
Proof.
  revert x. induction s as [|c s IH]; intros x H; simpl in H.
  - injection H as _ <-. reflexivity.
  - destruct (negb (is_digit c)); [injection H as _ <-; reflexivity|].
    case_ifs_in H; try discriminate. apply IH in H. simpl. lia.
Qed.

Lemma leadingFraction_rest {F} `{Float64 F} (s : string) (x : Z) (scale : F) (o : bool)
    (f : Z) (sc : F) (r : string) :
  leadingFraction s x scale o = (f, sc, r) -> (String.length r <= String.length s)%nat.
Proof.
  revert x scale o. induction s as [|c s IH]; intros x scale o Hl; simpl in Hl.
  - injection Hl as _ _ <-. reflexivity.
  - destruct (negb (is_digit c)); [injection Hl as _ _ <-; reflexivity|].
    case_ifs_in Hl; apply IH in Hl; simpl; lia.
Qed.

Lemma unit_len_le (s : string) : (unit_len s <= String.length s)%nat.
Proof. induction s as [|c r IH]; simpl; [lia|]. destruct (_ || _); lia. Qed.

(** A round consumes at least one byte. *)
Lemma duration_round_shorter {F} `{Float64 F} (orig s : string) (d d' : Z) (s' : string) :
  s <> EmptyString -> duration_round orig s d = Ok (d', s') ->
  (String.length s' < String.length s)%nat.
Proof.
  intros Hne. unfold duration_round. destruct s as [|c0 t]; [contradiction|].
  destruct (negb _); [discriminate|].
  destruct (leadingInt _ 0) as [[v s1]|] eqn:Hli; [|discriminate].
  apply leadingInt_rest in Hli.
  destruct (match s1 with String _ _ => _ | EmptyString => _ end) as [[[f scale] s2] post] eqn:Hp.
  assert (Hs2 : (String.length s2 <= String.length s1)%nat).
  { destruct s1 as [|c1 r1]; [injection Hp; intros; subst; lia|].
    destruct (Ascii.eqb c1 "."); [|injection Hp; intros; subst; lia].
    destruct (leadingFraction r1 0 (of_Z 1) false) as [[f' sc'] s2'] eqn:Hf.
    apply leadingFraction_rest in Hf. injection Hp; intros; subst. simpl. lia. }
  destruct (negb _ && negb _); [discriminate|].
  destruct (Nat.eqb_spec (unit_len s2) 0) as [|Hu]; [discriminate|].
  pose proof (unit_len_le s2).
  destruct (unitMap _); [|discriminate].
  case_ifs; intros Hr; try discriminate; injection Hr as _ <-;
    rewrite str_drop_length; simpl in *; lia.
Qed.

(** [String.length s] rounds are enough: the loop never runs out of fuel. *)
Lemma parse_loop_fuel {F} `{Float64 F} (fuel : nat) (orig s : string) (d : Z) :
  (String.length s <= fuel)%nat -> duration_loop fuel orig s d <> None.
Proof.
  revert s d. induction fuel as [|k IH]; intros s d Hl; destruct s as [|c r]; cbn [duration_loop]; try discriminate.
  - simpl in Hl. lia.
  - destruct (duration_round orig (String c r) d) as [[d' s']|e] eqn:Hr; [|congruence].
    apply duration_round_shorter in Hr; [|discriminate].
    apply IH. simpl in *. lia.
Qed.

(** ** The range of the result *)

Lemma duration_round_range {F} `{Float64 F} (orig s : string) (d d' : Z) (s' : string) :
  0 <= d <= 2 ^ 63 -> duration_round orig s d = Ok (d', s') -> 0 <= d' <= 2 ^ 63.
Proof.
  intros Hd. unfold duration_round. destruct s as [|c0 t]; [intros [= <- _]; exact Hd|].
  destruct (negb _); [discriminate|].
  destruct (leadingInt _ 0) as [[v s1]|]; [|discriminate].
  destruct (match s1 with String _ _ => _ | EmptyString => _ end) as [[[f scale] s2] post].
  destruct (negb _ && negb _); [discriminate|].
  destruct (Nat.eqb _ 0); [discriminate|].
  destruct (unitMap _); [|discriminate].
  case_ifs; intros Hr; try discriminate; injection Hr as <- _; zbool; unfold wrap_uint64 in *;
    split; try lia; apply Z.mod_pos_bound; lia.
Qed.

Lemma duration_loop_range {F} `{Float64 F} (fuel : nat) (orig s : string) (d d' : Z) :
  0 <= d <= 2 ^ 63 -> duration_loop fuel orig s d = Some (Ok d') -> 0 <= d' <= 2 ^ 63.
Proof.
  revert s d. induction fuel as [|k IH]; intros s d Hd; destruct s as [|c r];
    cbn [duration_loop]; try congruence.
  destruct (duration_round orig (String c r) d) as [[d1 s1]|e] eqn:Hr; [|congruence].
  apply duration_round_range in Hr; [|exact Hd]. apply IH. exact Hr.
Qed.

(** [ParseDuration] returns an int64: the uint64 sum is at most [2^63],
    a positive result at most [2^63 - 1]. *)
Theorem ParseDuration_range {F} `{Float64 F} (s : string) (v : Z) :
  ParseDuration s = Ok v -> in_int64 v.
Proof.
  unfold ParseDuration.
  destruct (match s with String _ _ => _ | EmptyString => _ end) as [neg t].
  destruct (String.eqb t "0"); [intros [= <-]; unfold in_int64; lia|].
  destruct (String.eqb t ""); [discriminate|].
  destruct (duration_loop _ s t 0) as [[d|e]|] eqn:Hl; try discriminate.
  apply duration_loop_range in Hl; [|lia].
  destruct neg; [intros [= <-]; apply wrap_int64_range|].
  case_ifs; intros Hv; [discriminate|]. injection Hv as <-. zbool. unfold in_int64. lia.
Qed.

(** ** Sign symmetry *)

(** The input [orig] only enters the error values. *)
Lemma duration_round_orig {F} `{Float64 F} (o o' s : string) (d : Z) (x : Z * string) :
  duration_round o s d = Ok x -> duration_round o' s d = Ok x.
Proof.
  unfold duration_round. destruct s as [|c0 t]; [auto|].
  destruct (negb _); [discriminate|].
  destruct (leadingInt _ 0) as [[v s1]|]; [|discriminate].
  destruct (match s1 with String _ _ => _ | EmptyString => _ end) as [[[f scale] s2] post].
  destruct (negb _ && negb _); [discriminate|].
  destruct (Nat.eqb _ 0); [discriminate|].
  destruct (unitMap _); [|discriminate].
  case_ifs; auto; discriminate.
Qed.

Lemma duration_loop_orig {F} `{Float64 F} (fuel : nat) (o o' s : string) (d v : Z) :
  duration_loop fuel o s d = Some (Ok v) -> duration_loop fuel o' s d = Some (Ok v).
Proof.
  revert s d. induction fuel as [|k IH]; intros s d; destruct s as [|c r];
    cbn [duration_loop]; auto.
  destruct (duration_round o (String c r) d) as [[d1 s1]|e] eqn:Hr; [|discriminate].
  rewrite (duration_round_orig o o' _ _ _ Hr). apply IH.
Qed.

Definition starts_with_sign (s : string) : bool :=
  match s with
  | String c _ => Ascii.eqb c "-" || Ascii.eqb c "+"
  | EmptyString => false
  end.

(** A minus sign negates the duration. *)
Theorem ParseDuration_neg {F} `{Float64 F} (s : string) (d : Z) :
  starts_with_sign s = false -> ParseDuration s = Ok d -> ParseDuration (String "-" s) = Ok (- d).
Proof.
  intros Hs Hd. pose proof (ParseDuration_range s d Hd) as Hr. revert Hd.
  unfold ParseDuration. destruct s as [|c r]; [discriminate|].
  simpl in Hs. rewrite Hs. cbn iota beta.
  change (Ascii.eqb "-" "-" || Ascii.eqb "-" "+") with true.
  change (Ascii.eqb "-" "-") with true. cbn iota beta.
  destruct (String.eqb (String c r) "0"); [intros [= <-]; reflexivity|].
  destruct (String.eqb (String c r) ""); [discriminate|].
  destruct (duration_loop _ (String c r) (String c r) 0) as [[v|e]|] eqn:Hl; try discriminate.
  pose proof (duration_loop_range _ _ _ 0 v ltac:(lia) Hl).
  rewrite (duration_loop_orig _ _ (String "-" (String c r)) _ _ _ Hl).
  case_ifs; intros Hv; [discriminate|]. injection Hv as <-.
  rewrite wrap_int64_opp, wrap_int64_id; [reflexivity|unfold in_int64 in *; lia].
Qed.

(** ** Printed durations parse back *)

Definition starts_non_digit (t : string) : bool :=
  match t with
  | EmptyString => true
  | String c _ => negb (is_digit c)
  end.

(** Where a unit ends: at the end of the input, a period or a digit. *)
Definition unit_stop (t : string) : bool :=
  match t with
  | EmptyString => true
  | String c _ => Ascii.eqb c "." || is_digit c
  end.

Lemma leadingInt_digits (s t : string) (x : Z) :
  all_digits s = true -> starts_non_digit t = true -> 0 <= x -> horner x s <= 2 ^ 63 ->
  leadingInt (s ++ t) x = Some (horner x s, t).
Proof.
  revert x. induction s as [|c r IH]; intros x Hd Ht Hx Hb.
  - destruct t as [|c t]; [reflexivity|]. simpl in *. now rewrite Ht.
  - rewrite string_app_cons. cbn [all_digits horner leadingInt] in *.
    apply andb_true_iff in Hd as [Hc Hr]. rewrite Hc. apply is_digit_val in Hc.
    pose proof (horner_bound r (x * 10 + (byte_val c - 48)) Hr ltac:(lia)) as [L _].
    pose proof (Z.pow_pos_nonneg 10 (Z.of_nat (String.length r)) ltac:(lia) ltac:(lia)).
    simpl negb. cbn iota.
    destruct (Z.ltb_spec (2 ^ 63 / 10) x).
    { assert (x * 10 <= 2 ^ 63) by nia.
      assert (x <= 2 ^ 63 / 10) by (apply Z.div_le_lower_bound; lia). lia. }
    replace (x * 10 + byte_val c - 48) with (x * 10 + (byte_val c - 48)) by lia.
    destruct (Z.ltb_spec (2 ^ 63) (x * 10 + (byte_val c - 48))); [nia|].
    apply IH; auto; lia.
Qed.

Lemma unitMap_cases (u : string) (k : Z) :
  unitMap u = Some k ->
  In (u, k) [("ns"%string, Nanosecond); ("us"%string, Microsecond);
             ("µs"%string, Microsecond); ("μs"%string, Microsecond);
             ("ms"%string, Millisecond); ("s"%string, Second);
             ("m"%string, Minute); ("h"%string, Hour)].
Proof.
  unfold unitMap.
  repeat match goal with
         | |- context [String.eqb u ?v] =>
             destruct (String.eqb_spec u v) as [->|_];
             [intros [= <-]; simpl; repeat (first [left; reflexivity | right])|]
         end.
  intros [=].
Qed.

(** A unit is non-empty, starts with neither a digit nor a period, and
    has no period or digit inside. *)
Lemma unitMap_spec (u : string) (k : Z) :
  unitMap u = Some k ->
  0 < k /\ u <> EmptyString /\ starts_non_digit u = true /\
  (forall t, unit_stop t = true -> unit_len (u ++ t) = String.length u) /\
  (forall r, u <> String "." r).
Proof.
  intros H. apply unitMap_cases in H. simpl in H.
  repeat destruct H as [H|H]; try contradiction; injection H as <- <-;
    (split; [vm_compute; reflexivity|]); (split; [discriminate|]);
    (split; [reflexivity|]);
    (split; [intros t Ht; destruct t as [|c t]; simpl in *; [reflexivity|rewrite Ht; reflexivity]|]);
    intros r; discriminate.
Qed.

(** One round on [digits ++ unit ++ rest] adds [n * unit] to the uint64
    sum, wrapping around; the round fails only if the wrapped sum passes
    [2^63]. *)
Lemma duration_round_digits_wrap {F} `{Float64 F} (orig : string) (n k d : Z) (u rest : string) :
  unitMap u = Some k -> unit_stop rest = true -> 0 <= n -> n * k <= 2 ^ 63 ->
  wrap_uint64 (d + n * k) <= 2 ^ 63 ->
  duration_round orig (utoa n ++ u ++ rest) d = Ok (wrap_uint64 (d + n * k), rest).
Proof.
  intros Hu Hrest Hn Hnk Hb.
  destruct (unitMap_spec u k Hu) as (Hk & Hne & Hsd & Hlen & Hdot).
  destruct (utoa_spec n Hn) as (Hv & Hdig & Hnz).
  assert (Hnb : n <= 2 ^ 63) by nia.
  unfold duration_round.
  destruct (utoa n) as [|c0 t] eqn:U; [contradiction|].
  rewrite string_app_cons. pose proof Hdig as Hc0. simpl in Hc0. apply andb_true_iff in Hc0 as [Hc0 _].
  rewrite Hc0, orb_true_r. cbn [negb].
  change (String c0 (t ++ u ++ rest)) with (String c0 t ++ (u ++ rest))%string.
  rewrite leadingInt_digits; [|exact Hdig| |lia|lia].
  2:{ destruct u as [|cu u']; [contradiction|]. exact Hsd. }
  cbn iota beta.
  rewrite string_length_app.
  destruct u as [|cu u']; [contradiction|]. rewrite string_app_cons.
  destruct (Ascii.eqb_spec cu ".") as [->|_]; [exfalso; exact (Hdot u' eq_refl)|].
  cbn iota beta. rewrite <- string_app_cons, Hlen by exact Hrest.
  rewrite str_take_app, str_drop_app, Hu, Hv.
  case_ifs; zbool; simpl in *; try lia; try reflexivity.
  assert (n <= 2 ^ 63 / k) by (apply Z.div_le_lower_bound; lia). lia.
Qed.

(** Without wrap-around: the sum stays at most [2^63]. *)
Lemma duration_round_digits {F} `{Float64 F} (orig : string) (n k d : Z) (u rest : string) :
  unitMap u = Some k -> unit_stop rest = true -> 0 <= n -> 0 <= d -> d + n * k <= 2 ^ 63 ->
  duration_round orig (utoa n ++ u ++ rest) d = Ok (d + n * k, rest).
Proof.
  intros Hu Hrest Hn Hd Hb. destruct (unitMap_spec u k Hu) as (Hk & _).
  assert (Hw : wrap_uint64 (d + n * k) = d + n * k).
  { apply wrap_uint64_id. unfold in_uint64. nia. }
  rewrite <- Hw. apply duration_round_digits_wrap; auto; [nia|rewrite Hw; lia].
Qed.

Lemma duration_loop_step {F} `{Float64 F} (m : nat) (o s : string) (d : Z) :
  s <> EmptyString ->
  duration_loop (S m) o s d =
  match duration_round o s d with
  | Err e => Some (Err e)
  | Ok (d', s') => duration_loop m o s' d'
  end.
Proof. destruct s; [contradiction|reflexivity]. Qed.

(** A duration printed as [<digits><unit>] parses back to its value:
    ["45m"] is [45 * Minute]. *)
Theorem ParseDuration_utoa_unit {F} `{Float64 F} (n k : Z) (u : string) :
  unitMap u = Some k -> 0 <= n -> n * k < 2 ^ 63 ->
  ParseDuration (utoa n ++ u) = Ok (n * k).
Proof.
  intros Hu Hn Hb.
  destruct (unitMap_spec u k Hu) as (Hk & Hne & _ & _ & _).
  destruct (utoa_spec n Hn) as (_ & Hdig & Hnz).
  pose proof (duration_round_digits (utoa n ++ u) n k 0 u EmptyString Hu eq_refl Hn
                ltac:(lia) ltac:(lia)) as Hr.
  rewrite string_app_nil_r, Z.add_0_l in Hr.
  unfold ParseDuration.
  destruct (utoa n) as [|c t] eqn:U; [contradiction|].
  simpl in Hdig. apply andb_true_iff in Hdig as [Hc _].
  destruct (is_digit_not_sign c Hc) as [Hp Hm].
  rewrite string_app_cons, Hm, Hp. cbn [orb]. cbn iota beta. rewrite <- string_app_cons.
  set (s := (String c t ++ u)%string) in *.
  assert (Hlen : (2 <= String.length s)%nat).
  { subst s. rewrite string_length_app. destruct u; [contradiction|]. simpl. lia. }
  destruct (String.eqb_spec s "0") as [E|_]; [rewrite E in Hlen; simpl in Hlen; lia|].
  destruct (String.eqb_spec s "") as [E|Hs0]; [rewrite E in Hlen; simpl in Hlen; lia|].
  destruct (String.length s) as [|m] eqn:L; [lia|].
  rewrite duration_loop_step by assumption. rewrite Hr. destruct m; cbn [duration_loop].
  - destruct (Z.ltb_spec (2 ^ 63 - 1) (n * k)); [lia|reflexivity].
  - destruct (Z.ltb_spec (2 ^ 63 - 1) (n * k)); [lia|reflexivity].
Qed.

(** ** The uint64 sum wraps around *)

(** More fuel gives the same result. *)
Lemma duration_loop_fuel_mono {F} `{Float64 F} (fuel fuel' : nat) (o s : string) (d : Z)
    (r : goresult Z) :
  duration_loop fuel o s d = Some r -> (fuel <= fuel')%nat -> duration_loop fuel' o s d = Some r.
Proof.
  revert fuel' s d. induction fuel as [|k IH]; intros fuel' s d Hl Hf;
    destruct fuel' as [|k'], s as [|c t]; cbn [duration_loop] in *; try congruence; try lia.
  destruct (duration_round o (String c t) d) as [[d1 s1]|e]; [|exact Hl].
  apply IH; [exact Hl|lia].
Qed.

(** A round starts at a digit or a period. *)
Lemma duration_round_unit_stop {F} `{Float64 F} (o s : string) (d : Z) (x : Z * string) :
  s <> EmptyString -> duration_round o s d = Ok x -> unit_stop s = true.
Proof.
  intros Hne. unfold duration_round. destruct s as [|c t]; [contradiction|].
  simpl. destruct (Ascii.eqb c "." || is_digit c); [reflexivity|discriminate].
Qed.

(** A duration that starts with a digit goes straight to the loop. *)
Lemma ParseDuration_digit_start {F} `{Float64 F} (c : ascii) (t : string) :
  is_digit c = true -> t <> EmptyString ->
  ParseDuration (String c t) =
  match duration_loop (S (String.length t)) (String c t) (String c t) 0 with
  | None => Err (DurationInvalid (String c t))
  | Some (Err e) => Err e
  | Some (Ok d) => if (2 ^ 63 - 1 <? d)%Z then Err (DurationInvalid (String c t)) else Ok d
  end.
Proof.
  intros Hc Ht. destruct (is_digit_not_sign c Hc) as [Hp Hm].
  unfold ParseDuration. rewrite Hm, Hp. cbn [orb]. cbn iota beta.
  destruct (String.eqb_spec (String c t) "0") as [E|_]; [injection E; intros; contradiction|].
  destruct (String.eqb_spec (String c t) "") as [E|_]; [discriminate|].
  reflexivity.
Qed.

(** A positive duration written without a sign parses to the same value
    after two components of [2^63] ns: the uint64 sum [2^63 + 2^63]
    wraps to [0] and passes the check [d > 2^63]. *)
Theorem ParseDuration_wrap {F} `{Float64 F} (c : string) (t : Z) :
  starts_with_sign c = false -> ParseDuration c = Ok t -> 0 < t ->
  ParseDuration (utoa (2 ^ 63) ++ "ns" ++ utoa (2 ^ 63) ++ "ns" ++ c)%string = Ok t.
Proof.
  intros Hs Hc Ht. unfold ParseDuration in Hc.
  destruct c as [|c0 r]; [discriminate|]. simpl in Hs. rewrite Hs in Hc. cbn iota beta in Hc.
  destruct (String.eqb (String c0 r) "0"); cbn iota in Hc; [assert (t = 0) by congruence; lia|].
  destruct (String.eqb (String c0 r) ""); cbn iota in Hc; [discriminate|].
  destruct (duration_loop _ (String c0 r) (String c0 r) 0) as [[v|e]|] eqn:Hl; try discriminate.
  destruct (Z.ltb_spec (2 ^ 63 - 1) v); cbn iota in Hc; [discriminate|].
  assert (t = v) by congruence. subst t.
  set (w := (utoa (2 ^ 63) ++ "ns" ++ utoa (2 ^ 63) ++ "ns" ++ String c0 r)%string).
  assert (Hr2 : unit_stop (String c0 r) = true).
  { destruct (String.length (String c0 r)) as [|m] eqn:L; [discriminate|].
    rewrite duration_loop_step in Hl by discriminate.
    destruct (duration_round _ _ 0) as [x|e] eqn:Hr; [|discriminate].
    apply (duration_round_unit_stop (String c0 r) (String c0 r) 0 x); [discriminate|exact Hr]. }
  assert (R1 : duration_round w w 0 = Ok (2 ^ 63, (utoa (2 ^ 63) ++ "ns" ++ String c0 r)%string)).
  { apply (duration_round_digits_wrap w (2 ^ 63) 1 0);
      first [reflexivity | lia | vm_compute; discriminate]. }
  assert (R2 : duration_round w (utoa (2 ^ 63) ++ "ns" ++ String c0 r)%string (2 ^ 63) = Ok (0, String c0 r)).
  { apply (duration_round_digits_wrap w (2 ^ 63) 1 (2 ^ 63));
      first [reflexivity | exact Hr2 | lia | vm_compute; discriminate]. }
  assert (U : utoa (2 ^ 63) = "9223372036854775808"%string) by (vm_compute; reflexivity).
  set (w' := ("223372036854775808" ++ "ns" ++ utoa (2 ^ 63) ++ "ns" ++ String c0 r)%string).
  assert (Hw : w = String "9" w') by (unfold w, w'; rewrite U; reflexivity).
  assert (L : String.length w' = S (40 + String.length (String c0 r))).
  { unfold w'. rewrite U, !string_length_app. cbn [String.length]. lia. }
  rewrite Hw, ParseDuration_digit_start by (reflexivity || (unfold w'; discriminate)).
  rewrite <- Hw, L.
  rewrite duration_loop_step by (rewrite Hw; discriminate). rewrite R1. cbn iota beta.
  rewrite duration_loop_step by (rewrite U; discriminate). rewrite R2. cbn iota beta.
  rewrite (duration_loop_fuel_mono _ _ _ _ _ _ (duration_loop_orig _ _ w _ _ _ Hl)) by lia.
  destruct (Z.ltb_spec (2 ^ 63 - 1) v); [lia|reflexivity].
Qed.

(** ** [Hours] and [Minutes] in an exact model *)

Section Exact.
Context {F : Type} `{FE : Float64Exact F}.

(** Go splits [d] into whole units and a remainder of nanoseconds; in an
    exact model the two parts add up to [d] divided by the unit. *)
Lemma split_unit_exact (d u : Z) :
  0 < u ->
  fval (fadd (of_Z (Z.quot d u)) (fdiv (of_Z (Z.rem d u)) (of_Z u))) == inject_Z d / inject_Z u.
Proof.
  intros Hu.
  assert (Hu' : ~ inject_Z u == 0).
  { unfold Qeq. simpl. lia. }
  rewrite fval_add, fval_div by (rewrite fval_of_Z; exact Hu').
  rewrite !fval_of_Z.
  rewrite (Z.quot_rem' d u) at 3. rewrite inject_Z_plus, inject_Z_mult.
  field. exact Hu'.
Qed.

Theorem Hours_exact (d : Z) : fval (Hours d) == inject_Z d / inject_Z Hour.
Proof. apply split_unit_exact. reflexivity. Qed.

Theorem Minutes_exact (d : Z) : fval (Minutes d) == inject_Z d / inject_Z Minute.
Proof. apply split_unit_exact. reflexivity. Qed.

End Exact.

Lemma unitMap_no_comma (u : string) (k : Z) : unitMap u = Some k -> has_byte "," u = false.
Proof.
  intros H. apply unitMap_cases in H. simpl in H.
  repeat destruct H as [H|H]; try contradiction; injection H as <- _; reflexivity.
Qed.
