(* ===== verification/SpentCalories.v ===== *)
(** * Package [spentcalories] ([src/internal/spentcalories/spentcalories.go])

    Module [SpentCalories] holds the package: its constants, its error
    variables, [parseTraining], [distance], [meanSpeed],
    [RunningSpentCalories], [WalkingSpentCalories] and [TrainingInfo].
    The float64 operations come from the [Float64] model in context
    ([GoFloat]); [TrainingInfo] returns its [(string, error)] result with
    the list of errors it logged. *)

From Stdlib Require Import ZArith String Ascii List Lia Bool QArith Qabs Floats.
From S2P Require Import Prelude GoStrings GoFloat GoError Strconv GoTime.
Import ListNotations.
Open Scope Z_scope.

Module SpentCalories.

(** ** Errors *)

Definition ErrInvalidArgumentCount : error :=
  ErrorString "spentcalories.ErrInvalidArgumentCount" "expected 2 arguments".
Definition ErrZeroSteps : error :=
  ErrorString "spentcalories.ErrZeroSteps" "steps must be greater than zero".
Definition ErrZeroDuration : error :=
  ErrorString "spentcalories.ErrZeroDuration" "duration must be greater than zero".
Definition ErrZeroWeight : error :=
  ErrorString "spentcalories.ErrZeroWeight" "weight must be greater than zero".
Definition ErrZeroHeigth : error :=
  ErrorString "spentcalories.ErrZeroHeigth" "height must be greater than zero".
Definition ErrUnknownTraining : error :=
  ErrorString "spentcalories.ErrUnknownTraining" "неизвестный тип тренировки".

(** The two labels of the [switch] in [TrainingInfo]. *)
Definition Walking_label : string := "Ходьба".
Definition Running_label : string := "Бег".

(** ** Constants *)

Definition mInKm : Z := 1000.
Definition minInH : Z := 60.

Section WithFloat.
Context {F : Type} `{FO : Float64 F}.

Definition lenStep : F := dec 65 2.
Definition stepLengthCoefficient : F := dec 45 2.
Definition walkingCaloriesCoefficient : F := dec 5 1.

(** ** [parseTraining] *)

Definition parseTraining (data : string) : goresult (Z * string * Z) :=
  match Split "," data with
  | [s0; s1; s2] =>
      match Atoi s0 with
      | Err err => Err err
      | Ok steps =>
          if steps <=? 0 then Err ErrZeroSteps else
          match ParseDuration s2 with
          | Err err => Err err
          | Ok totalTime =>
              if totalTime <=? 0 then Err ErrZeroDuration
              else Ok (steps, s1, totalTime)
          end
      end
  | _ => Err ErrInvalidArgumentCount
  end.

(** ** The formulas *)

Definition distance (steps : Z) (height : F) : F :=
  let stepLength := fmul stepLengthCoefficient height in
  let pathLength := fmul stepLength (of_Z steps) in
  fdiv pathLength (of_Z mInKm).

Definition meanSpeed (steps : Z) (height : F) (duration : Z) : F :=
  if duration <=? 0 then of_Z 0 else
  let totalDistance := distance steps height in
  fdiv totalDistance (Hours duration).

Definition RunningSpentCalories (steps : Z) (weight height : F) (duration : Z) : goresult F :=
  if steps <=? 0 then Err ErrZeroSteps
  else if fleb weight (of_Z 0) then Err ErrZeroWeight
  else if fleb height (of_Z 0) then Err ErrZeroHeigth
  else if duration <=? 0 then Err ErrZeroDuration
  else
    let speedAvg := meanSpeed steps height duration in
    let durationInMinutes := Minutes duration in
    let calories := fdiv (fmul (fmul weight speedAvg) durationInMinutes) (of_Z minInH) in
    Ok calories.

Definition WalkingSpentCalories (steps : Z) (weight height : F) (duration : Z) : goresult F :=
  match RunningSpentCalories steps weight height duration with
  | Err err => Err err
  | Ok cal => Ok (fmul cal walkingCaloriesCoefficient)
  end.

(** ** [TrainingInfo] *)

(** The five lines of the report. *)
Definition training_report (trainingType : string) (duration : Z) (dist speedAvg totalCalories : F)
  : string :=
  "Тип тренировки: " ++ trainingType ++ newline ++
  "Длительность: " ++ fmt2 (Hours duration) ++ " ч." ++ newline ++
  "Дистанция: " ++ fmt2 dist ++ " км." ++ newline ++
  "Скорость: " ++ fmt2 speedAvg ++ " км/ч" ++ newline ++
  "Сожгли калорий: " ++ fmt2 totalCalories ++ newline.

(** The result and the errors logged by [log.Println]. *)
Definition TrainingInfo (data : string) (weight height : F) : goresult string * list error :=
  match parseTraining data with
  | Err err => (Err err, [err])
  | Ok (steps, trainingType, duration) =>
      let calories :=
        if String.eqb trainingType Walking_label then WalkingSpentCalories steps weight height duration
        else if String.eqb trainingType Running_label then RunningSpentCalories steps weight height duration
        else Err ErrUnknownTraining in
      match calories with
      | Err err => (Err err, [])
      | Ok totalCalories =>
          let dist := distance steps height in
          let speedAvg := meanSpeed steps height duration in
          (Ok (training_report trainingType duration dist speedAvg totalCalories), [])
      end
  end.

End WithFloat.

(** ** The formulas in an exact model *)

Section Exact.
Context {F : Type} `{FE : Float64Exact F}.

Lemma distance_exact (steps : Z) (height : F) :
  fval (distance steps height) == (45 # 100) * fval height * inject_Z steps / 1000.
Proof.
  unfold distance, stepLengthCoefficient, mInKm.
  rewrite fval_div by (rewrite fval_of_Z; apply inject_Z_nonzero; lia).
  rewrite !fval_mul, !fval_of_Z, fval_dec. qconst. field.
Qed.

(** [meanSpeed] is [0] for a non-positive duration, and the distance over
    the duration in hours otherwise. *)
Lemma meanSpeed_value (steps : Z) (height : F) (duration : Z) :
  fval (meanSpeed steps height duration) ==
  if duration <=? 0 then 0
  else (45 # 100) * fval height * inject_Z steps / 1000 / (inject_Z duration / inject_Z Hour).
Proof.
  unfold meanSpeed. destruct (Z.leb_spec duration 0); cbn iota.
  - rewrite fval_of_Z. reflexivity.
  - rewrite fval_div.
    + rewrite distance_exact, Hours_exact. reflexivity.
    + rewrite Hours_exact. unfold Hour, Minute, Second, Millisecond, Microsecond, Nanosecond.
      intros E. apply Qmult_integral in E as [E|E]; [|discriminate].
      apply inject_Z_nonzero in E; [exact E|lia].
Qed.

(** In an exact model the calories of a run are [weight * distance]: the
    duration cancels out of [weight * speed * minutes / 60]. *)
Lemma running_value (steps : Z) (weight height : F) (duration : Z) :
  0 < steps -> (0 < fval weight)%Q -> (0 < fval height)%Q -> 0 < duration ->
  exists c, RunningSpentCalories steps weight height duration = Ok c /\
    fval c == fval weight * ((45 # 100) * fval height * inject_Z steps / 1000).
Proof.
  intros Hs Hw Hh Hd. unfold RunningSpentCalories.
  destruct (Z.leb_spec steps 0); [lia|].
  rewrite !fleb_zero_pos by assumption.
  destruct (Z.leb_spec duration 0); [lia|].
  eexists. split; [reflexivity|].
  rewrite fval_div by (rewrite fval_of_Z; apply inject_Z_nonzero; discriminate).
  rewrite !fval_mul, meanSpeed_value, Minutes_exact, fval_of_Z.
  destruct (Z.leb_spec duration 0); [lia|].
  unfold Hour, Minute, Second, Millisecond, Microsecond, Nanosecond, minInH. qconst.
  field. apply inject_Z_nonzero. lia.
Qed.

(** A walk burns half the calories of a run: [weight * distance / 2]. *)
Lemma walking_value (steps : Z) (weight height : F) (duration : Z) :
  0 < steps -> (0 < fval weight)%Q -> (0 < fval height)%Q -> 0 < duration ->
  exists c, WalkingSpentCalories steps weight height duration = Ok c /\
    fval c == fval weight * ((45 # 100) * fval height * inject_Z steps / 1000) / 2.
Proof.
  intros Hs Hw Hh Hd.
  destruct (running_value steps weight height duration Hs Hw Hh Hd) as [c [Hr Hc]].
  unfold WalkingSpentCalories. rewrite Hr. eexists. split; [reflexivity|].
  unfold walkingCaloriesCoefficient. rewrite fval_mul, fval_dec, Hc. qconst. field.
Qed.

(** C14: Two runs of the same steps that differ only in duration burn the
    same calories. *)
Corollary RunningSpentCalories_duration_independent (steps : Z) (weight height : F) (d1 d2 : Z) :
  0 < steps -> (0 < fval weight)%Q -> (0 < fval height)%Q -> 0 < d1 -> 0 < d2 ->
  exists c1 c2, RunningSpentCalories steps weight height d1 = Ok c1 /\
    RunningSpentCalories steps weight height d2 = Ok c2 /\ fval c1 == fval c2.
Proof.
  intros Hs Hw Hh H1 H2.
  destruct (running_value steps weight height d1 Hs Hw Hh H1) as [c1 [E1 V1]].
  destruct (running_value steps weight height d2 Hs Hw Hh H2) as [c2 [E2 V2]].
  exists c1, c2. split; [exact E1|]. split; [exact E2|]. rewrite V1, V2. reflexivity.
Qed.

Lemma inject_Z_nonneg (z : Z) : 0 <= z -> (0 <= inject_Z z)%Q.
Proof. intros Hz. unfold Qle. simpl. lia. Qed.

(** C16: [distance] and [meanSpeed] are non-negative on non-negative inputs. *)
Theorem distance_meanSpeed_nonneg (steps : Z) (height : F) (duration : Z) :
  0 <= steps -> (0 <= fval height)%Q ->
  (0 <= fval (distance steps height))%Q /\ (0 <= fval (meanSpeed steps height duration))%Q.
Proof.
  intros Hs Hh. pose proof (inject_Z_nonneg steps Hs) as Hs'.
  assert (Hd : (0 <= (45 # 100) * fval height * inject_Z steps / 1000)%Q).
  { apply Qle_shift_div_l; [reflexivity|].
    rewrite Qmult_0_l. apply Qmult_le_0_compat; [|exact Hs'].
    apply Qmult_le_0_compat; [discriminate|exact Hh]. }
  rewrite distance_exact, meanSpeed_value. split; [exact Hd|].
  destruct (Z.leb_spec duration 0); [apply Qle_refl|].
  apply Qle_shift_div_l.
  - apply Qlt_shift_div_l; [reflexivity|]. rewrite Qmult_0_l.
    unfold Qlt. simpl. lia.
  - rewrite Qmult_0_l. exact Hd.
Qed.

(** C1: for a positive step count, weight, height and duration,
    [RunningSpentCalories] succeeds, and in an exact model its result is
    [weight * (0.45 * height * steps / 1000)], the weight times the
    distance in km: the duration cancels out of
    [weight * speed * minutes / 60]. *)
Theorem RunningSpentCalories_exact (steps : Z) (weight height : F) (duration : Z) :
  0 < steps -> (0 < fval weight)%Q -> (0 < fval height)%Q -> 0 < duration ->
  exists c, RunningSpentCalories steps weight height duration = Ok c /\
    fval c == fval weight * ((45 # 100) * fval height * inject_Z steps / 1000).
Proof. exact (running_value steps weight height duration). Qed.

(** C3: on the same inputs [WalkingSpentCalories] succeeds with half of
    the running calories, [weight * (0.45 * height * steps / 1000) / 2]. *)
Theorem WalkingSpentCalories_exact (steps : Z) (weight height : F) (duration : Z) :
  0 < steps -> (0 < fval weight)%Q -> (0 < fval height)%Q -> 0 < duration ->
  exists c, WalkingSpentCalories steps weight height duration = Ok c /\
    fval c == fval weight * ((45 # 100) * fval height * inject_Z steps / 1000) / 2.
Proof. exact (walking_value steps weight height duration). Qed.

(** C15: [meanSpeed] is [0] when the duration is not positive, and the
    height-scaled distance [0.45 * height * steps / 1000] km divided by
    the duration in hours otherwise. *)
Theorem meanSpeed_exact (steps : Z) (height : F) (duration : Z) :
  fval (meanSpeed steps height duration) ==
  if duration <=? 0 then 0
  else (45 # 100) * fval height * inject_Z steps / 1000 / (inject_Z duration / inject_Z Hour).
Proof. exact (meanSpeed_value steps height duration). Qed.

End Exact.

(** ** Guards, parsing and the report, in any float model *)

Section Generic.
Context {F : Type} `{FO : Float64 F}.

(** The guards of [RunningSpentCalories] in source order: the error is the
    one of the first input that is not positive. *)
Lemma running_error_iff (steps : Z) (weight height : F) (duration : Z) (e : error) :
  RunningSpentCalories steps weight height duration = Err e <->
  (steps <= 0 /\ e = ErrZeroSteps) \/
  (0 < steps /\ fleb weight (of_Z 0) = true /\ e = ErrZeroWeight) \/
  (0 < steps /\ fleb weight (of_Z 0) = false /\ fleb height (of_Z 0) = true /\
   e = ErrZeroHeigth) \/
  (0 < steps /\ fleb weight (of_Z 0) = false /\ fleb height (of_Z 0) = false /\
   duration <= 0 /\ e = ErrZeroDuration).
Proof.
  unfold RunningSpentCalories.
  destruct (Z.leb_spec steps 0), (fleb weight (of_Z 0)), (fleb height (of_Z 0)),
    (Z.leb_spec duration 0);
    split; intros Hr; try (injection Hr as <-); try discriminate;
    repeat (destruct Hr as [Hr|Hr]); try (destruct Hr as (? & ? & ? & ? & ?));
    try (destruct Hr as (? & ? & ? & ?)); try (destruct Hr as (? & ? & ?));
    try (destruct Hr as (? & ?)); subst; try discriminate; try lia; auto 10.
Qed.

(** The records [parseTraining] accepts: three fields without a comma,
    an [Atoi] step count and a [ParseDuration] duration, both positive. *)
Inductive TrainingRecord (data : string) (steps : Z) (label : string) (duration : Z) : Prop :=
| training_record (a c : string) :
    data = (a ++ "," ++ label ++ "," ++ c)%string ->
    has_byte "," a = false -> has_byte "," label = false -> has_byte "," c = false ->
    Atoi a = Ok steps -> 0 < steps ->
    ParseDuration c = Ok duration -> 0 < duration ->
    TrainingRecord data steps label duration.

Lemma Split_three (a b c : string) :
  has_byte "," a = false -> has_byte "," b = false -> has_byte "," c = false ->
  Split "," (a ++ "," ++ b ++ "," ++ c) = [a; b; c].
Proof.
  intros Ha Hb Hc. rewrite Split_eq_ref.
  apply (split_ref_join "," [a; b; c]); [discriminate|repeat constructor; assumption].
Qed.

Lemma Split_three_inv (data a b c : string) :
  Split "," data = [a; b; c] ->
  data = (a ++ "," ++ b ++ "," ++ c)%string /\
  has_byte "," a = false /\ has_byte "," b = false /\ has_byte "," c = false.
Proof.
  rewrite Split_eq_ref. intros Hs.
  pose proof (split_ref_concat "," data) as Hc. pose proof (split_ref_pieces "," data) as Hp.
  rewrite Hs in Hc, Hp. inversion Hp as [|? ? Ha Hp']; inversion Hp' as [|? ? Hb Hp''];
    inversion Hp'' as [|? ? Hc' _]; subst.
  repeat split; assumption.
Qed.

(** [parseTraining] accepts exactly the training records. *)
Lemma parseTraining_ok_iff (data : string) (steps : Z) (label : string) (duration : Z) :
  parseTraining data = Ok (steps, label, duration) <-> TrainingRecord data steps label duration.
Proof.
  split.
  - unfold parseTraining.
    destruct (Split "," data) as [|a [|b [|c [|x rest]]]] eqn:Hs; try discriminate.
    destruct (Split_three_inv data a b c Hs) as (-> & Ha & Hb & Hc).
    destruct (Atoi a) as [n|e] eqn:Hn; [|discriminate].
    destruct (Z.leb_spec n 0); [discriminate|].
    destruct (ParseDuration c) as [t|e] eqn:Ht; [|discriminate].
    destruct (Z.leb_spec t 0); [discriminate|].
    intros [= <- <- <-]. econstructor; eauto.
  - intros [a c -> Ha Hl Hc Hn Hs Ht Hd]. unfold parseTraining.
    rewrite Split_three by assumption. rewrite Hn, Ht.
    destruct (Z.leb_spec steps 0); [lia|]. destruct (Z.leb_spec duration 0); [lia|].
    reflexivity.
Qed.

(** The parsed step count and duration are positive int64 values. *)
Lemma parseTraining_range (data : string) (steps : Z) (label : string) (duration : Z) :
  parseTraining data = Ok (steps, label, duration) ->
  0 < steps < 2 ^ 63 /\ 0 < duration < 2 ^ 63 /\ has_byte "," label = false.
Proof.
  intros H. apply parseTraining_ok_iff in H as [a c _ _ Hl _ Hn Hs Ht Hd].
  pose proof (Atoi_result a) as Ha. rewrite Hn in Ha.
  pose proof (ParseDuration_range c duration Ht).
  unfold in_int64 in *. repeat split; auto; lia.
Qed.

(** C13: A record printed from its values parses back to them. *)
Theorem parseTraining_roundtrip (steps : Z) (label : string) (n k : Z) (u : string) :
  0 < steps < 2 ^ 63 -> has_byte "," label = false ->
  unitMap u = Some k -> 0 < n -> n * k < 2 ^ 63 ->
  parseTraining (Itoa steps ++ "," ++ label ++ "," ++ utoa n ++ u) = Ok (steps, label, n * k).
Proof.
  intros Hs Hl Hu Hn Hb. apply parseTraining_ok_iff.
  destruct (utoa_spec n ltac:(lia)) as (_ & Hdn & _).
  destruct (utoa_spec steps ltac:(lia)) as (_ & Hds & _).
  pose proof (unitMap_spec u k Hu) as (Hk & _).
  econstructor; [reflexivity| | exact Hl | | | | | ].
  - rewrite Itoa_pos by lia. apply all_digits_no_byte; [reflexivity|exact Hds].
  - rewrite has_byte_app, (unitMap_no_comma u k Hu), orb_false_r.
    apply all_digits_no_byte; [reflexivity|exact Hdn].
  - apply Atoi_Itoa. unfold in_int64. lia.
  - lia.
  - apply ParseDuration_utoa_unit; [exact Hu|lia|exact Hb].
  - nia.
Qed.

(** C7: [TrainingInfo] logs the error of [parseTraining] and nothing else. *)
Theorem TrainingInfo_log (data : string) (weight height : F) :
  snd (TrainingInfo data weight height) =
  match parseTraining data with
  | Err e => [e]
  | Ok _ => []
  end.
Proof.
  unfold TrainingInfo. destruct (parseTraining data) as [[[s l] d]|e]; [|reflexivity].
  destruct (if String.eqb l Walking_label then _ else _); reflexivity.
Qed.

(** C8: A parsed record with another label is rejected with
    [ErrUnknownTraining], whatever the weight and height. *)
Theorem TrainingInfo_unknown (data : string) (weight height : F)
    (steps : Z) (label : string) (duration : Z) :
  parseTraining data = Ok (steps, label, duration) ->
  label <> Walking_label -> label <> Running_label ->
  TrainingInfo data weight height = (Err ErrUnknownTraining, []).
Proof.
  intros Hp Hw Hr. unfold TrainingInfo. rewrite Hp.
  apply String.eqb_neq in Hw, Hr. rewrite Hw, Hr. reflexivity.
Qed.

(** C17: A report is produced only for a known label and a weight and height
    that pass the guards [<= 0]. *)
Theorem TrainingInfo_ok (data : string) (weight height : F) (report : string) :
  fst (TrainingInfo data weight height) = Ok report ->
  exists steps label duration,
    parseTraining data = Ok (steps, label, duration) /\
    (label = Walking_label \/ label = Running_label) /\
    fleb weight (of_Z 0) = false /\ fleb height (of_Z 0) = false.
Proof.
  unfold TrainingInfo. destruct (parseTraining data) as [[[s l] d]|e] eqn:Hp; [|discriminate].
  pose proof (parseTraining_range _ _ _ _ Hp) as (Hs & Hd & _).
  assert (G : forall c, RunningSpentCalories s weight height d = Ok c ->
                fleb weight (of_Z 0) = false /\ fleb height (of_Z 0) = false).
  { intros c. unfold RunningSpentCalories. case_ifs; intros Hc; try discriminate; auto. }
  destruct (String.eqb_spec l Walking_label) as [->|Hw].
  - unfold WalkingSpentCalories.
    destruct (RunningSpentCalories s weight height d) as [c|e] eqn:Hr; [|discriminate].
    intros _. exists s, Walking_label, d. destruct (G c eq_refl). auto.
  - destruct (String.eqb_spec l Running_label) as [->|Hr'].
    + destruct (RunningSpentCalories s weight height d) as [c|e] eqn:Hr; [|discriminate].
      intros _. exists s, Running_label, d. destruct (G c eq_refl). auto.
    + discriminate.
Qed.

(** C2: [RunningSpentCalories] checks its inputs in the order steps,
    weight, height, duration, and fails with the error of the first one
    that is not positive ([<= 0] on the float model's comparison). *)
Theorem RunningSpentCalories_error (steps : Z) (weight height : F) (duration : Z) (e : error) :
  RunningSpentCalories steps weight height duration = Err e <->
  (steps <= 0 /\ e = ErrZeroSteps) \/
  (0 < steps /\ fleb weight (of_Z 0) = true /\ e = ErrZeroWeight) \/
  (0 < steps /\ fleb weight (of_Z 0) = false /\ fleb height (of_Z 0) = true /\
   e = ErrZeroHeigth) \/
  (0 < steps /\ fleb weight (of_Z 0) = false /\ fleb height (of_Z 0) = false /\
   duration <= 0 /\ e = ErrZeroDuration).
Proof. exact (running_error_iff steps weight height duration e). Qed.

(** C4: [parseTraining] returns [(steps, label, duration)] exactly for the
    records [a,label,c] of three comma-free fields where [Atoi a] is a
    positive [steps] and [ParseDuration c] a positive [duration]. *)
Theorem parseTraining_spec (data : string) (steps : Z) (label : string) (duration : Z) :
  parseTraining data = Ok (steps, label, duration) <-> TrainingRecord data steps label duration.
Proof. exact (parseTraining_ok_iff data steps label duration). Qed.

(** C11: a record accepted by [parseTraining] has a step count and a
    duration in [(0, 2^63)] and a label without a comma. *)
Theorem parseTraining_bounds (data : string) (steps : Z) (label : string) (duration : Z) :
  parseTraining data = Ok (steps, label, duration) ->
  0 < steps < 2 ^ 63 /\ 0 < duration < 2 ^ 63 /\ has_byte "," label = false.
Proof. exact (parseTraining_range data steps label duration). Qed.

(** The checks both parsers run on their step and duration fields, in
    this order: the [Atoi] error, [steps <= 0], the [ParseDuration]
    error, [totalTime <= 0]. *)
Lemma checked_fields_err {A : Type} (rs rt : goresult Z) (E1 E2 : error) (k : Z -> Z -> A)
    (e : error) :
  match rs with
  | Err err => Err err
  | Ok n =>
      if n <=? 0 then Err E1 else
      match rt with
      | Err err => Err err
      | Ok t => if t <=? 0 then Err E2 else Ok (k n t)
      end
  end = Err e <->
  rs = Err e \/
  exists n, rs = Ok n /\
    ((n <= 0 /\ e = E1) \/
     (0 < n /\ (rt = Err e \/ exists t, rt = Ok t /\ t <= 0 /\ e = E2))).
Proof.
  destruct rs as [n|err]; [|split; [intros [= ->]; auto|intros [H|(? & H & _)]; congruence]].
  destruct (Z.leb_spec n 0), rt as [t|err]; try destruct (Z.leb_spec t 0);
    split; intros Hr; try (injection Hr as <-); try discriminate;
    repeat match goal with
           | H : _ \/ _ |- _ => destruct H
           | H : exists _, _ |- _ => destruct H
           | H : _ /\ _ |- _ => destruct H
           | H : Ok _ = Ok _ |- _ => injection H as <-
           | H : Err _ = Err _ |- _ => injection H as <-
           end; subst; try discriminate; try lia; eauto 10.
Qed.

(** The report of a record with a known label whose calories are [c]. *)
Lemma TrainingInfo_report (data : string) (weight height : F) (steps : Z) (label : string)
    (duration : Z) (c : F) :
  parseTraining data = Ok (steps, label, duration) ->
  (label = Walking_label /\ WalkingSpentCalories steps weight height duration = Ok c) \/
  (label = Running_label /\ RunningSpentCalories steps weight height duration = Ok c) ->
  TrainingInfo data weight height =
    (Ok (training_report label duration (distance steps height) (meanSpeed steps height duration) c), []).
Proof.
  intros Hp Hc. unfold TrainingInfo. rewrite Hp.
  replace (String.eqb Running_label Walking_label) with false by reflexivity.
  destruct Hc as [[-> Hc]|[-> Hc]]; rewrite String.eqb_refl, Hc; reflexivity.
Qed.

(** C22: [parseTraining] fails with the error of the first check that
    fails, in the order: field count ([ErrInvalidArgumentCount]), the
    [Atoi] error of the step field, [ErrZeroSteps], the [ParseDuration]
    error of the duration field, [ErrZeroDuration]. *)
Theorem parseTraining_error (data : string) (e : error) :
  parseTraining data = Err e <->
  (length (Split "," data) <> 3%nat /\ e = ErrInvalidArgumentCount) \/
  exists a b c, Split "," data = [a; b; c] /\
    (Atoi a = Err e \/
     exists n, Atoi a = Ok n /\
       ((n <= 0 /\ e = ErrZeroSteps) \/
        (0 < n /\ (ParseDuration c = Err e \/
                   exists t, ParseDuration c = Ok t /\ t <= 0 /\ e = ErrZeroDuration)))).
Proof.
  unfold parseTraining.
  destruct (Split "," data) as [|a [|b [|c [|x rest]]]];
    try (split; [intros [= <-]; left; split; [discriminate|reflexivity]|];
         intros [[_ ->]|(? & ? & ? & H & _)]; [reflexivity|discriminate]).
  rewrite (checked_fields_err _ _ _ _ (fun n t => (n, b, t))). split.
  - intros H. right. eauto.
  - intros [[H _]|(a' & b' & c' & [= <- <- <-] & H)]; [exfalso; exact (H eq_refl)|exact H].
Qed.

End Generic.

(** ** The report in an exact model *)

Section ExactReport.
Context {F : Type} `{FE : Float64Exact F}.

(** C23: For a parsed record with a known label and a positive weight and
    height, [TrainingInfo] returns the report of the label, the duration,
    the distance [0.45 * height * steps / 1000], the speed (that distance
    over the hours) and the calories [weight * distance], halved for a
    walk, logging nothing. *)
Theorem TrainingInfo_exact (data : string) (weight height : F) (steps : Z) (label : string)
    (duration : Z) :
  parseTraining data = Ok (steps, label, duration) ->
  label = Walking_label \/ label = Running_label ->
  (0 < fval weight)%Q -> (0 < fval height)%Q ->
  exists dist speed cal,
    TrainingInfo data weight height = (Ok (training_report label duration dist speed cal), []) /\
    fval dist == (45 # 100) * fval height * inject_Z steps / 1000 /\
    fval speed == (45 # 100) * fval height * inject_Z steps / 1000 / (inject_Z duration / inject_Z Hour) /\
    fval cal == fval weight * ((45 # 100) * fval height * inject_Z steps / 1000) *
                (if String.eqb label Walking_label then 1 # 2 else 1).
Proof.
  intros Hp Hl Hw Hh. destruct (parseTraining_range _ _ _ _ Hp) as (Hs & Hd & _).
  assert (Hv : fval (meanSpeed steps height duration) ==
               (45 # 100) * fval height * inject_Z steps / 1000 / (inject_Z duration / inject_Z Hour)).
  { rewrite meanSpeed_value. destruct (Z.leb_spec duration 0); [lia|reflexivity]. }
  destruct Hl as [-> | ->].
  - destruct (walking_value steps weight height duration ltac:(lia) Hw Hh ltac:(lia)) as [c [Hc Vc]].
    exists (distance steps height), (meanSpeed steps height duration), c.
    rewrite (TrainingInfo_report data weight height steps _ duration c Hp (or_introl (conj eq_refl Hc))).
    rewrite String.eqb_refl, distance_exact, Hv, Vc. do 3 (split; [reflexivity|]). field.
  - destruct (running_value steps weight height duration ltac:(lia) Hw Hh ltac:(lia)) as [c [Hc Vc]].
    exists (distance steps height), (meanSpeed steps height duration), c.
    rewrite (TrainingInfo_report data weight height steps _ duration c Hp (or_intror (conj eq_refl Hc))).
    replace (String.eqb Running_label Walking_label) with false by reflexivity.
    rewrite distance_exact, Hv, Vc. do 3 (split; [reflexivity|]). field.
Qed.

End ExactReport.

(** ** What Go computes: the IEEE model *)

(** The spec's test case for the calculator, run as Go runs it: 1000 steps, 70 kg, 1.75 m, 10 minutes.  The
    float64 result lies within [1e-6] of the exact [70 * 0.7875 = 55.125]. *)
Example RunningSpentCalories_ieee_example :
  match RunningSpentCalories 1000 (of_Z 70 : float) (dec 175 2) (10 * Minute) with
  | Ok c =>
      match ieee_value c with
      | Some q => Qle_bool (Qabs (q - (55125 # 1000))) (1 # 1000000)
      | None => false
      end
  | Err _ => false
  end = true.
Proof. vm_compute. reflexivity. Qed.

(** A NaN weight or height, the other one passing its guard: every guard
    [x <= 0] is false on NaN, and NaN propagates through [meanSpeed] and
    the calorie formula. *)
Lemma running_nan (steps : Z) (weight height : float) (duration : Z) :
  0 < steps -> 0 < duration ->
  (Prim2SF weight = S754_nan /\ fleb height (of_Z 0) = false) \/
  (fleb weight (of_Z 0) = false /\ Prim2SF height = S754_nan) ->
  exists c, RunningSpentCalories steps weight height duration = Ok c /\ Prim2SF c = S754_nan.
Proof.
  intros Hs Hd Hn. unfold RunningSpentCalories.
  destruct (Z.leb_spec steps 0); [lia|]. destruct (Z.leb_spec duration 0); [lia|].
  destruct Hn as [[Hw Hh]|[Hw Hh]].
  - simpl fleb at 1. rewrite (ieee_nan_leb_l _ _ Hw), Hh.
    eexists. split; [reflexivity|]. simpl fmul; simpl fdiv.
    apply ieee_nan_div_l, ieee_nan_mul_l, ieee_nan_mul_l, Hw.
  - rewrite Hw. simpl fleb at 1. rewrite (ieee_nan_leb_l _ _ Hh).
    eexists. split; [reflexivity|]. simpl fmul; simpl fdiv.
    apply ieee_nan_div_l, ieee_nan_mul_l, ieee_nan_mul_r.
    unfold meanSpeed. destruct (Z.leb_spec duration 0); [lia|].
    apply ieee_nan_div_l. unfold distance.
    apply ieee_nan_div_l, ieee_nan_mul_l, ieee_nan_mul_r, Hh.
Qed.

(** C20: A NaN weight or a NaN height passes the guards [weight <= 0] and
    [height <= 0] (every comparison with NaN is false): for every record
    with a known label, [TrainingInfo] accepts the run and reports NaN
    calories, printed as ["NaN"], logging nothing. *)
Theorem nan_input_accepted (data : string) (weight height : float) (steps : Z)
    (label : string) (duration : Z) :
  parseTraining (F := float) data = Ok (steps, label, duration) ->
  label = Walking_label \/ label = Running_label ->
  (PrimFloat.is_nan weight = true /\ fleb height (of_Z 0) = false) \/
  (fleb weight (of_Z 0) = false /\ PrimFloat.is_nan height = true) ->
  exists c,
    TrainingInfo data weight height =
      (Ok (training_report label duration (distance steps height) (meanSpeed steps height duration) c), []) /\
    PrimFloat.is_nan c = true /\ fmt2 c = "NaN"%string.
Proof.
  intros Hp Hl Hn. destruct (parseTraining_range _ _ _ _ Hp) as (Hs & Hd & _).
  rewrite !ieee_is_nan_iff in Hn.
  destruct (running_nan steps weight height duration ltac:(lia) ltac:(lia) Hn) as [c [Hc Vc]].
  destruct Hl as [-> | ->].
  - exists (fmul c walkingCaloriesCoefficient).
    rewrite (TrainingInfo_report data weight height steps _ duration (fmul c walkingCaloriesCoefficient) Hp).
    + assert (V : Prim2SF (fmul c walkingCaloriesCoefficient) = S754_nan)
        by exact (ieee_nan_mul_l _ _ Vc).
      split; [reflexivity|]. split; [apply ieee_is_nan_iff, V|apply ieee_nan_fmt2, V].
    + left. split; [reflexivity|]. unfold WalkingSpentCalories. rewrite Hc. reflexivity.
  - exists c. rewrite (TrainingInfo_report data weight height steps _ duration _ Hp (or_intror (conj eq_refl Hc))).
    split; [reflexivity|]. split; [apply ieee_is_nan_iff, Vc|apply ieee_nan_fmt2, Vc].
Qed.

(** ** The theorems at concrete inputs *)

Lemma RunningSpentCalories_exact_witness :
  (0 < 1000 /\ (0 < 70)%Q /\ (0 < 175 # 100)%Q /\ 0 < 10 * Minute) /\
  exists c, RunningSpentCalories (F := Q) 1000 (70 : Q) (175 # 100 : Q) (10 * Minute) = Ok c /\
    fval c == fval (70 : Q) * ((45 # 100) * fval (175 # 100 : Q) * inject_Z 1000 / 1000).
Proof.
  split; [repeat split; vm_compute; reflexivity|].
  apply (RunningSpentCalories_exact (F := Q)); vm_compute; reflexivity.
Defined.

Lemma WalkingSpentCalories_exact_witness :
  (0 < 5000 /\ (0 < 70)%Q /\ (0 < 175 # 100)%Q /\ 0 < 30 * Minute) /\
  exists c, WalkingSpentCalories (F := Q) 5000 (70 : Q) (175 # 100 : Q) (30 * Minute) = Ok c /\
    fval c == fval (70 : Q) * ((45 # 100) * fval (175 # 100 : Q) * inject_Z 5000 / 1000) / 2.
Proof.
  split; [repeat split; vm_compute; reflexivity|].
  apply (WalkingSpentCalories_exact (F := Q)); vm_compute; reflexivity.
Defined.

Lemma RunningSpentCalories_duration_independent_witness :
  (0 < 1000 /\ (0 < 70)%Q /\ (0 < 175 # 100)%Q /\ 0 < 10 * Minute /\ 0 < 2 * Hour) /\
  exists c1 c2, RunningSpentCalories (F := Q) 1000 (70 : Q) (175 # 100 : Q) (10 * Minute) = Ok c1 /\
    RunningSpentCalories (F := Q) 1000 (70 : Q) (175 # 100 : Q) (2 * Hour) = Ok c2 /\ fval c1 == fval c2.
Proof.
  split; [repeat split; vm_compute; reflexivity|].
  apply (RunningSpentCalories_duration_independent (F := Q)); vm_compute; reflexivity.
Defined.

Lemma distance_meanSpeed_nonneg_witness :
  (0 <= 1000 /\ (0 <= 175 # 100)%Q) /\
  (0 <= fval (distance (F := Q) 1000 (175 # 100 : Q)))%Q /\
  (0 <= fval (meanSpeed (F := Q) 1000 (175 # 100 : Q) (10 * Minute)))%Q.
Proof.
  split; [split; vm_compute; discriminate|].
  apply (distance_meanSpeed_nonneg (F := Q)); vm_compute; discriminate.
Defined.

Lemma TrainingInfo_unknown_witness :
  (@parseTraining float IEEE "1000,Dancing,10m" = Ok (1000, "Dancing"%string, 10 * Minute) /\
   "Dancing"%string <> Walking_label /\ "Dancing"%string <> Running_label) /\
  TrainingInfo "1000,Dancing,10m" (of_Z 70 : float) (dec 175 2) = (Err ErrUnknownTraining, []).
Proof.
  split; [split; [vm_compute; reflexivity|split; discriminate]|].
  apply (TrainingInfo_unknown _ _ _ 1000 "Dancing" (10 * Minute));
    [vm_compute; reflexivity|discriminate|discriminate].
Defined.

Lemma parseTraining_bounds_witness :
  @parseTraining float IEEE "3456,Бег,45m" = Ok (3456, Running_label, 45 * Minute) /\
  (0 < 3456 < 2 ^ 63 /\ 0 < 45 * Minute < 2 ^ 63 /\ has_byte "," Running_label = false).
Proof.
  split; [vm_compute; reflexivity|].
  apply (parseTraining_bounds (F := float) "3456,Бег,45m"). vm_compute. reflexivity.
Defined.

Lemma parseTraining_roundtrip_witness :
  (0 < 3456 < 2 ^ 63 /\ has_byte "," Running_label = false /\ unitMap "m" = Some Minute /\
   0 < 45 /\ 45 * Minute < 2 ^ 63) /\
  @parseTraining float IEEE (Itoa 3456 ++ "," ++ Running_label ++ "," ++ utoa 45 ++ "m")
    = Ok (3456, Running_label, 45 * Minute).
Proof.
  split; [repeat split; vm_compute; try reflexivity; lia|].
  apply parseTraining_roundtrip; repeat split; vm_compute; try reflexivity; lia.
Defined.

Lemma TrainingInfo_ok_witness :
  exists steps label duration,
    @parseTraining Q Exact "3456,Бег,45m" = Ok (steps, label, duration) /\
    (label = Walking_label \/ label = Running_label) /\
    fleb (70 : Q) (of_Z 0) = false /\ fleb (175 # 100 : Q) (of_Z 0) = false.
Proof.
  apply (TrainingInfo_ok (F := Q) "3456,Бег,45m" (70 : Q) (175 # 100 : Q)
           (match fst (TrainingInfo (F := Q) "3456,Бег,45m" (70 : Q) (175 # 100 : Q)) with
            | Ok r => r
            | Err _ => EmptyString
            end)).
  vm_compute. reflexivity.
Defined.

Lemma TrainingInfo_exact_witness :
  (@parseTraining Q Exact "678,Ходьба,1h50m" = Ok (678, Walking_label, 110 * Minute) /\
   (Walking_label = Walking_label \/ Walking_label = Running_label) /\
   (0 < fval (75 : Q))%Q /\ (0 < fval (175 # 100 : Q))%Q) /\
  exists dist speed cal,
    TrainingInfo (F := Q) "678,Ходьба,1h50m" (75 : Q) (175 # 100) =
      (Ok (training_report Walking_label (110 * Minute) dist speed cal), []) /\
    fval dist == (45 # 100) * fval (175 # 100 : Q) * inject_Z 678 / 1000 /\
    fval speed == (45 # 100) * fval (175 # 100 : Q) * inject_Z 678 / 1000 /
                  (inject_Z (110 * Minute) / inject_Z Hour) /\
    fval cal == fval (75 : Q) * ((45 # 100) * fval (175 # 100 : Q) * inject_Z 678 / 1000) *
                (if String.eqb Walking_label Walking_label then 1 # 2 else 1).
Proof.
  split; [split; [vm_compute; reflexivity|split; [left; reflexivity|split; reflexivity]]|].
  apply (TrainingInfo_exact (F := Q) "678,Ходьба,1h50m" (75 : Q) (175 # 100) 678 Walking_label (110 * Minute));
    [vm_compute; reflexivity|left; reflexivity|reflexivity|reflexivity].
Defined.

Lemma nan_input_accepted_witness :
  (@parseTraining float IEEE "1000,Бег,10m" = Ok (1000, Running_label, 10 * Minute) /\
   (Running_label = Walking_label \/ Running_label = Running_label) /\
   ((PrimFloat.is_nan nan = true /\ fleb (dec 175 2 : float) (of_Z 0) = false) \/
    (fleb nan (of_Z 0) = false /\ PrimFloat.is_nan (dec 175 2 : float) = true))) /\
  exists c,
    TrainingInfo "1000,Бег,10m" nan (dec 175 2) =
      (Ok (training_report Running_label (10 * Minute) (distance 1000 (dec 175 2))
             (meanSpeed 1000 (dec 175 2) (10 * Minute)) c), []) /\
    PrimFloat.is_nan c = true /\ fmt2 c = "NaN"%string.
Proof.
  split; [split; [vm_compute; reflexivity|split; [right; reflexivity|left; split; vm_compute; reflexivity]]|].
  apply (nan_input_accepted "1000,Бег,10m" nan (dec 175 2) 1000 Running_label (10 * Minute));
    [vm_compute; reflexivity|right; reflexivity|left; split; vm_compute; reflexivity].
Defined.

End SpentCalories.
