(* ===== verification/DaySteps.v ===== *)
(** * Package [daysteps] ([src/internal/daysteps/daysteps.go])

    Module [DaySteps]: the constants, the error variables, [parsePackage]
    and [DayActionInfo], which calls [SpentCalories.WalkingSpentCalories].
    [DayActionInfo] returns its string with the list of errors it logged:
    every error is logged once and turned into the empty string. *)

From Stdlib Require Import ZArith String Ascii List Lia Bool QArith Floats.
From S2P Require Import Prelude GoStrings GoFloat GoError Strconv GoTime SpentCalories.
Import ListNotations.
Open Scope Z_scope.

Module DaySteps.

(** ** Errors and constants *)

Definition ErrInvalidArgumentCount : error :=
  ErrorString "daysteps.ErrInvalidArgumentCount" "expected 2 arguments".
Definition ErrZeroSteps : error :=
  ErrorString "daysteps.ErrZeroSteps" "steps must be greater than zero".
Definition ErrZeroDuration : error :=
  ErrorString "daysteps.ErrZeroDuration" "duration must be greater than zero".

Definition mInKm : Z := 1000.

Section WithFloat.
Context {F : Type} `{FO : Float64 F}.

Definition stepLength : F := dec 65 2.

(** ** [parsePackage] *)

Definition parsePackage (data : string) : goresult (Z * Z) :=
  match Split "," data with
  | [s0; s1] =>
      match Atoi s0 with
      | Err err => Err err
      | Ok steps =>
          if steps <=? 0 then Err ErrZeroSteps else
          match ParseDuration s1 with
          | Err err => Err err
          | Ok totalTime =>
              if totalTime <=? 0 then Err ErrZeroDuration
              else Ok (steps, totalTime)
          end
      end
  | _ => Err ErrInvalidArgumentCount
  end.

(** ** [DayActionInfo] *)

(** The three lines of the report; [%v] prints the step count. *)
Definition day_report (steps : Z) (pathKilometers calories : F) : string :=
  "Количество шагов: " ++ Itoa steps ++ "." ++ newline ++
  "Дистанция составила " ++ fmt2 pathKilometers ++ " км." ++ newline ++
  "Вы сожгли " ++ fmt2 calories ++ " ккал." ++ newline.

(** The fixed-stride distance in kilometres. *)
Definition path_kilometers (steps : Z) : F :=
  let pathLength := fmul (of_Z steps) stepLength in
  fdiv pathLength (of_Z mInKm).

(** The report, or [""]; with the errors logged by [log.Println]. *)
Definition DayActionInfo (data : string) (weight height : F) : string * list error :=
  match parsePackage data with
  | Err err => (EmptyString, [err])
  | Ok (steps, duration) =>
      if steps <=? 0 then (EmptyString, [ErrZeroSteps]) else
      let pathKilometers := path_kilometers steps in
      match SpentCalories.WalkingSpentCalories steps weight height duration with
      | Err err => (EmptyString, [err])
      | Ok calories => (day_report steps pathKilometers calories, [])
      end
  end.

End WithFloat.

(** ** Parsing and the report, in any float model *)

Section Generic.
Context {F : Type} `{FO : Float64 F}.

(** The records [parsePackage] accepts: two fields without a comma, an
    [Atoi] step count and a [ParseDuration] duration, both positive. *)
Inductive DailyRecord (data : string) (steps duration : Z) : Prop :=
| daily_record (a c : string) :
    data = (a ++ "," ++ c)%string ->
    has_byte "," a = false -> has_byte "," c = false ->
    Atoi a = Ok steps -> 0 < steps ->
    ParseDuration c = Ok duration -> 0 < duration ->
    DailyRecord data steps duration.

Lemma Split_two (a c : string) :
  has_byte "," a = false -> has_byte "," c = false -> Split "," (a ++ "," ++ c) = [a; c].
Proof.
  intros Ha Hc. rewrite Split_eq_ref.
  apply (split_ref_join "," [a; c]); [discriminate|repeat constructor; assumption].
Qed.

Lemma Split_two_inv (data a c : string) :
  Split "," data = [a; c] ->
  data = (a ++ "," ++ c)%string /\ has_byte "," a = false /\ has_byte "," c = false.
Proof.
  rewrite Split_eq_ref. intros Hs.
  pose proof (split_ref_concat "," data) as Hc. pose proof (split_ref_pieces "," data) as Hp.
  rewrite Hs in Hc, Hp. inversion Hp as [|? ? Ha Hp']; inversion Hp' as [|? ? Hc' _]; subst.
  repeat split; assumption.
Qed.

(** [parsePackage] accepts exactly the daily records. *)
Lemma parsePackage_ok_iff (data : string) (steps duration : Z) :
  parsePackage data = Ok (steps, duration) <-> DailyRecord data steps duration.
Proof.
  split.
  - unfold parsePackage.
    destruct (Split "," data) as [|a [|c [|x rest]]] eqn:Hs; try discriminate.
    destruct (Split_two_inv data a c Hs) as (-> & Ha & Hc).
    destruct (Atoi a) as [n|e] eqn:Hn; [|discriminate].
    destruct (Z.leb_spec n 0); [discriminate|].
    destruct (ParseDuration c) as [t|e] eqn:Ht; [|discriminate].
    destruct (Z.leb_spec t 0); [discriminate|].
    intros [= <- <-]. econstructor; eauto.
  - intros [a c -> Ha Hc Hn Hs Ht Hd]. unfold parsePackage.
    rewrite Split_two by assumption. rewrite Hn, Ht.
    destruct (Z.leb_spec steps 0); [lia|]. destruct (Z.leb_spec duration 0); [lia|].
    reflexivity.
Qed.

(** The parsed step count and duration are positive int64 values; in
    particular the second check [steps <= 0] of [DayActionInfo] never
    fires. *)
Lemma parsePackage_range (data : string) (steps duration : Z) :
  parsePackage data = Ok (steps, duration) -> 0 < steps < 2 ^ 63 /\ 0 < duration < 2 ^ 63.
Proof.
  intros H. apply parsePackage_ok_iff in H as [a c _ _ _ Hn Hs Ht Hd].
  pose proof (Atoi_result a) as Ha. rewrite Hn in Ha.
  pose proof (ParseDuration_range c duration Ht).
  unfold in_int64 in *. lia.
Qed.

(** C12: A record printed from its values parses back to them. *)
Theorem parsePackage_roundtrip (steps n k : Z) (u : string) :
  0 < steps < 2 ^ 63 -> unitMap u = Some k -> 0 < n -> n * k < 2 ^ 63 ->
  parsePackage (Itoa steps ++ "," ++ utoa n ++ u) = Ok (steps, n * k).
Proof.
  intros Hs Hu Hn Hb. apply parsePackage_ok_iff.
  destruct (utoa_spec n ltac:(lia)) as (_ & Hdn & _).
  destruct (utoa_spec steps ltac:(lia)) as (_ & Hds & _).
  econstructor; [reflexivity| | | | | | ].
  - rewrite Itoa_pos by lia. apply all_digits_no_byte; [reflexivity|exact Hds].
  - rewrite has_byte_app, (unitMap_no_comma u k Hu), orb_false_r.
    apply all_digits_no_byte; [reflexivity|exact Hdn].
  - apply Atoi_Itoa. unfold in_int64. lia.
  - lia.
  - apply ParseDuration_utoa_unit; [exact Hu|lia|exact Hb].
  - pose proof (unitMap_spec u k Hu) as (Hk & _). nia.
Qed.

(** C6: [DayActionInfo] never returns an error to its caller: it returns
    [""] having logged exactly one error, or a non-empty report having
    logged nothing. *)
Theorem DayActionInfo_contract (data : string) (weight height : F) :
  (fst (DayActionInfo data weight height) = EmptyString /\
   exists e, snd (DayActionInfo data weight height) = [e]) \/
  (fst (DayActionInfo data weight height) <> EmptyString /\
   snd (DayActionInfo data weight height) = []).
Proof.
  unfold DayActionInfo.
  destruct (parsePackage data) as [[s d]|e]; [|left; eauto].
  destruct (s <=? 0); [left; eauto|].
  destruct (SpentCalories.WalkingSpentCalories s weight height d); [|left; eauto].
  right. split; [|reflexivity]. unfold day_report. simpl. discriminate.
Qed.

(** C9: After a successful parse, the calculator can only reject the weight
    or the height, with the errors of [spentcalories], and that error is
    the one logged. *)
Theorem DayActionInfo_calc_error (data : string) (weight height : F) (steps duration : Z)
    (e : error) :
  parsePackage data = Ok (steps, duration) ->
  SpentCalories.WalkingSpentCalories steps weight height duration = Err e ->
  (e = SpentCalories.ErrZeroWeight \/ e = SpentCalories.ErrZeroHeigth) /\
  DayActionInfo data weight height = (EmptyString, [e]).
Proof.
  intros Hp Hw. pose proof (parsePackage_range _ _ _ Hp) as [Hs Hd].
  assert (Hr : SpentCalories.RunningSpentCalories steps weight height duration = Err e).
  { unfold SpentCalories.WalkingSpentCalories in Hw.
    destruct (SpentCalories.RunningSpentCalories _ _ _ _); congruence. }
  split.
  - apply SpentCalories.running_error_iff in Hr. intuition lia.
  - unfold DayActionInfo. rewrite Hp, Hw. destruct (Z.leb_spec steps 0); [lia|reflexivity].
Qed.

(** C5: [parsePackage] returns [(steps, duration)] exactly for the
    records [a,c] of two comma-free fields where [Atoi a] is a positive
    [steps] and [ParseDuration c] a positive [duration]. *)
Theorem parsePackage_spec (data : string) (steps duration : Z) :
  parsePackage data = Ok (steps, duration) <-> DailyRecord data steps duration.
Proof. exact (parsePackage_ok_iff data steps duration). Qed.

(** C10: a record accepted by [parsePackage] has a step count and a
    duration in [(0, 2^63)]; so the second check [steps <= 0] of
    [DayActionInfo] (daysteps.go:61) never fires. *)
Theorem parsePackage_bounds (data : string) (steps duration : Z) :
  parsePackage data = Ok (steps, duration) -> 0 < steps < 2 ^ 63 /\ 0 < duration < 2 ^ 63.
Proof. exact (parsePackage_range data steps duration). Qed.

(** C21: [time.ParseDuration] adds the components of a duration in a uint64
    that wraps around: for every record that [parsePackage] accepts with a
    duration [c] written without a sign, prefixing [c] with two components
    of [2^63] ns (a total of [2^64] ns more) gives the same record, so a
    duration of [2^64] ns plus [c] is read as [c]. *)
Theorem parsePackage_wrapped_duration (a c : string) (steps duration : Z) :
  has_byte "," c = false -> starts_with_sign c = false ->
  parsePackage (a ++ "," ++ c) = Ok (steps, duration) ->
  parsePackage (a ++ "," ++ utoa (2 ^ 63) ++ "ns" ++ utoa (2 ^ 63) ++ "ns" ++ c) = Ok (steps, duration).
Proof.
  intros Hc Hs Hp. apply parsePackage_ok_iff in Hp as [a' c' E Ha' Hc' Hn Hsp Ht Hd].
  destruct (comma_split_unique "," a c a' c' Hc Hc' E) as [-> ->].
  apply parsePackage_ok_iff.
  apply (daily_record _ _ _ a' (utoa (2 ^ 63) ++ "ns" ++ utoa (2 ^ 63) ++ "ns" ++ c')%string);
    first [assumption | reflexivity | apply ParseDuration_wrap; assumption
          | rewrite !has_byte_app, Hc; reflexivity].
Qed.

(** C25: The guard [totalTime <= 0] rejects negative durations: for every
    record that [parsePackage] accepts with a duration [c] written without
    a sign, the record with [-c] is rejected with [ErrZeroDuration]. *)
Theorem parsePackage_negative_duration (a c : string) (steps duration : Z) :
  has_byte "," c = false -> starts_with_sign c = false ->
  parsePackage (a ++ "," ++ c) = Ok (steps, duration) ->
  parsePackage (a ++ "," ++ String "-" c) = Err ErrZeroDuration.
Proof.
  intros Hc Hs Hp. apply parsePackage_ok_iff in Hp as [a' c' E Ha' Hc' Hn Hsp Ht Hd].
  destruct (comma_split_unique "," a c a' c' Hc Hc' E) as [-> ->].
  unfold parsePackage. rewrite Split_two by (simpl; assumption). rewrite Hn.
  destruct (Z.leb_spec steps 0); [lia|].
  rewrite (ParseDuration_neg c' duration Hs Ht).
  destruct (Z.leb_spec (- duration) 0); [reflexivity|lia].
Qed.

(** C24: [parsePackage] fails with the error of the first check that
    fails, in the order: field count ([ErrInvalidArgumentCount]), the
    [Atoi] error of the step field, [ErrZeroSteps], the [ParseDuration]
    error of the duration field, [ErrZeroDuration]. *)
Theorem parsePackage_error (data : string) (e : error) :
  parsePackage data = Err e <->
  (length (Split "," data) <> 2%nat /\ e = ErrInvalidArgumentCount) \/
  exists a c, Split "," data = [a; c] /\
    (Atoi a = Err e \/
     exists n, Atoi a = Ok n /\
       ((n <= 0 /\ e = ErrZeroSteps) \/
        (0 < n /\ (ParseDuration c = Err e \/
                   exists t, ParseDuration c = Ok t /\ t <= 0 /\ e = ErrZeroDuration)))).
Proof.
  unfold parsePackage.
  destruct (Split "," data) as [|a [|c [|x rest]]];
    try (split; [intros [= <-]; left; split; [discriminate|reflexivity]|];
         intros [[_ ->]|(? & ? & H & _)]; [reflexivity|discriminate]).
  rewrite (SpentCalories.checked_fields_err _ _ _ _ (fun n t => (n, t))). split.
  - intros H. right. eauto.
  - intros [[H _]|(a' & c' & [= <- <-] & H)]; [exfalso; exact (H eq_refl)|exact H].
Qed.

End Generic.

(** ** The report in an exact model *)

Section Exact.
Context {F : Type} `{FE : Float64Exact F}.

Lemma path_kilometers_exact (steps : Z) :
  fval (path_kilometers steps : F) == inject_Z steps * (65 # 100) / 1000.
Proof.
  unfold path_kilometers, stepLength, mInKm.
  rewrite fval_div by (rewrite fval_of_Z; apply inject_Z_nonzero; lia).
  rewrite fval_mul, !fval_of_Z, fval_dec. qconst. field.
Qed.

(** C18: The daily report shows [steps * 0.65 / 1000] km and the calories of
    a walk, [weight * (0.45 * height * steps / 1000) / 2]. *)
Theorem DayActionInfo_exact (data : string) (weight height : F) (steps duration : Z) :
  parsePackage data = Ok (steps, duration) -> (0 < fval weight)%Q -> (0 < fval height)%Q ->
  exists km cal, DayActionInfo data weight height = (day_report steps km cal, []) /\
    fval km == inject_Z steps * (65 # 100) / 1000 /\
    fval cal == fval weight * ((45 # 100) * fval height * inject_Z steps / 1000) / 2.
Proof.
  intros Hp Hw Hh. pose proof (parsePackage_range _ _ _ Hp) as [Hs Hd].
  destruct (SpentCalories.walking_value steps weight height duration
              ltac:(lia) Hw Hh ltac:(lia)) as [c [Hc Vc]].
  unfold DayActionInfo. rewrite Hp. destruct (Z.leb_spec steps 0); [lia|]. rewrite Hc.
  exists (path_kilometers steps), c. split; [reflexivity|]. split; [|exact Vc].
  apply path_kilometers_exact.
Qed.

(** C19: The daily distance (fixed stride [0.65] m) agrees with the training
    distance that the calories are computed from (stride [0.45 * height])
    only for a height of [13/9] m. *)
Theorem daily_distance_vs_training (steps : Z) (height : F) :
  0 < steps ->
  fval (path_kilometers steps : F) == fval (SpentCalories.distance steps height) <->
  fval height == 13 # 9.
Proof.
  intros Hs. rewrite path_kilometers_exact, SpentCalories.distance_exact.
  assert (Hx : ~ inject_Z steps * (45 # 100) / 1000 == 0).
  { intros E. apply Qmult_integral in E as [E|E]; [|discriminate].
    apply Qmult_integral in E as [E|E]; [|discriminate].
    apply inject_Z_nonzero in E; [exact E|lia]. }
  split; intros E.
  - apply (Qmult_inj_r _ _ _ Hx).
    transitivity ((45 # 100) * fval height * inject_Z steps / 1000)%Q; [field|].
    rewrite <- E. field.
  - rewrite E. field.
Qed.

End Exact.

(** ** What Go computes: the IEEE model *)

(** The spec's test cases for the daily summary. *)
Example daysteps_spec_examples :
  @parsePackage float IEEE "5000,30m" = Ok (5000, 30 * Minute) /\
  @parsePackage float IEEE "5000" = Err ErrInvalidArgumentCount /\
  @parsePackage float IEEE "0,30m" = Err ErrZeroSteps /\
  DayActionInfo "bad,input" (of_Z 70 : float) (dec 175 2) =
    (EmptyString, [NumError "Atoi" "bad" ErrSyntax]).
Proof. repeat split; vm_compute; reflexivity. Qed.

(** ** The theorems at concrete inputs *)

Lemma parsePackage_roundtrip_witness :
  (0 < 5000 < 2 ^ 63 /\ unitMap "m" = Some Minute /\ 0 < 30 /\ 30 * Minute < 2 ^ 63) /\
  @parsePackage float IEEE (Itoa 5000 ++ "," ++ utoa 30 ++ "m") = Ok (5000, 30 * Minute).
Proof.
  split; [repeat split; vm_compute; try reflexivity; lia|].
  apply parsePackage_roundtrip; repeat split; vm_compute; try reflexivity; lia.
Defined.

Lemma parsePackage_bounds_witness :
  @parsePackage float IEEE "5000,30m" = Ok (5000, 30 * Minute) /\
  (0 < 5000 < 2 ^ 63 /\ 0 < 30 * Minute < 2 ^ 63).
Proof.
  split; [vm_compute; reflexivity|].
  apply (parsePackage_bounds (F := float) "5000,30m"). vm_compute. reflexivity.
Defined.

Lemma DayActionInfo_calc_error_witness :
  (@parsePackage Q Exact "5000,30m" = Ok (5000, 30 * Minute) /\
   SpentCalories.WalkingSpentCalories (F := Q) 5000 (0 : Q) (175 # 100) (30 * Minute) =
     Err SpentCalories.ErrZeroWeight) /\
  (SpentCalories.ErrZeroWeight = SpentCalories.ErrZeroWeight \/
   SpentCalories.ErrZeroWeight = SpentCalories.ErrZeroHeigth) /\
  DayActionInfo (F := Q) "5000,30m" (0 : Q) (175 # 100) = (EmptyString, [SpentCalories.ErrZeroWeight]).
Proof.
  split; [split; vm_compute; reflexivity|].
  apply (DayActionInfo_calc_error (F := Q) "5000,30m" (0 : Q) (175 # 100) 5000 (30 * Minute));
    vm_compute; reflexivity.
Defined.

Lemma DayActionInfo_exact_witness :
  (@parsePackage Q Exact "5000,30m" = Ok (5000, 30 * Minute) /\
   (0 < fval (70 : Q))%Q /\ (0 < fval (175 # 100 : Q))%Q) /\
  exists km cal, DayActionInfo (F := Q) "5000,30m" (70 : Q) (175 # 100) = (day_report 5000 km cal, []) /\
    fval km == inject_Z 5000 * (65 # 100) / 1000 /\
    fval cal == fval (70 : Q) * ((45 # 100) * fval (175 # 100 : Q) * inject_Z 5000 / 1000) / 2.
Proof.
  split; [repeat split; vm_compute; reflexivity|].
  apply (DayActionInfo_exact (F := Q) "5000,30m" (70 : Q) (175 # 100) 5000 (30 * Minute));
    vm_compute; reflexivity.
Defined.

Lemma daily_distance_vs_training_witness :
  0 < 1000 /\
  (fval (path_kilometers (F := Q) 1000) == fval (SpentCalories.distance (F := Q) 1000 (13 # 9)) <->
   fval (13 # 9 : Q) == 13 # 9).
Proof.
  split; [reflexivity|].
  apply (daily_distance_vs_training (F := Q) 1000 (13 # 9)). reflexivity.
Defined.

Lemma parsePackage_wrapped_duration_witness :
  (has_byte "," "30m" = false /\ starts_with_sign "30m" = false /\
   @parsePackage float IEEE ("1000" ++ "," ++ "30m") = Ok (1000, 30 * Minute)) /\
  @parsePackage float IEEE ("1000" ++ "," ++ utoa (2 ^ 63) ++ "ns" ++ utoa (2 ^ 63) ++ "ns" ++ "30m")
    = Ok (1000, 30 * Minute).
Proof.
  split; [repeat split; vm_compute; reflexivity|].
  apply parsePackage_wrapped_duration; vm_compute; reflexivity.
Defined.

Lemma parsePackage_negative_duration_witness :
  (has_byte "," "30m" = false /\ starts_with_sign "30m" = false /\
   @parsePackage float IEEE ("1000" ++ "," ++ "30m") = Ok (1000, 30 * Minute)) /\
  @parsePackage float IEEE ("1000" ++ "," ++ String "-" "30m") = Err ErrZeroDuration.
Proof.
  split; [repeat split; vm_compute; reflexivity|].
  apply (parsePackage_negative_duration "1000" "30m" 1000 (30 * Minute)); vm_compute; reflexivity.
Defined.

End DaySteps.
